(** * Skills extractor: a shallow embedding of [skills_extractor.py]

    The module-level function [extract_skills], the two request handlers
    built on it and the vocabulary [TECHNICAL_SKILLS] are embedded below,
    followed by the properties of the extractor.

    Conventions.
    - A Python [str] is the list of its code points, [pystr]; [len] is
      the length of the list and the order of [sorted] is the
      lexicographic order of the code points.
    - [str.lower], [str.isdigit] and the white space of [str.split]
      consult the Unicode tables of the interpreter. The tables are not
      part of the program: they are a value of type [Unicode], and every
      statement holds for every such value.
    - The spaCy pipeline [nlp] is an external collaborator: it is a value
      of type [Language], about which nothing is assumed except where a
      statement says so.
    - A Python [set] is a [gset pystr]; the order in which a set is
      iterated is not fixed by its contents in Python, so it is supplied
      by a [SetOrder].
    - Statements, [print] and exceptions are run in a state-and-exception
      monad [M] over a [Store]. *)

From Stdlib Require Import Ascii ZArith.
From stdpp Require Import base gmap sets list strings sorting.

Local Open Scope Z_scope.

(** ** Python strings *)

(** A Python [str]: its code points, in order. *)
Abbreviation pystr := (list N).

(** The [str] written as a literal in the source; the literals of the
    source are ASCII, one byte per code point. *)
Fixpoint py (s : string) : pystr :=
  match s with
  | EmptyString => []
  | String c s' => N_of_ascii c :: py s'
  end.
Arguments py : simpl never.

(** ** The Unicode tables behind the methods of [str] *)

(** Lower-casing of an ASCII code point. *)
Definition ascii_lower (c : N) : N :=
  if bool_decide (65 ≤ c ≤ 90)%N then (c + 32)%N else c.

(** What [str.lower], [str.isdigit] and [str.split] look up, code point
    by code point:
    - [to_lower_full c], the lower-case mapping of [c] (one code point,
      or two for U+0130);
    - [final_sigma before after], whether a capital sigma, U+03A3,
      standing between [before] and [after] is at the end of a word;
    - [isspace c], whether [c] is white space;
    - [isdigit_char c], whether [c] is a digit.
    The laws are the facts about these tables that the proofs use. *)
Record Unicode : Type := mkUnicode {
  to_lower_full : N → list N;
  final_sigma : list N → list N → bool;
  isspace : N → bool;
  isdigit_char : N → bool;
  (* on ASCII the mapping is the ASCII one *)
  law_lower_ascii : ∀ c, (c < 128)%N → to_lower_full c = [ascii_lower c];
  (* a mapping is never empty *)
  law_lower_nonempty : ∀ c, to_lower_full c ≠ [];
  (* a mapping made of ASCII code points is a single code point *)
  law_lower_ascii_image :
    ∀ c, Forall (λ d, (d < 128)%N) (to_lower_full c) → length (to_lower_full c) = 1%nat;
  (* what a mapping produces is lower-case already, and is no U+03A3 *)
  law_lower_fixed : ∀ c d, d ∈ to_lower_full c → d ≠ 931%N ∧ to_lower_full d = [d];
  (* the two lower-case sigmas, U+03C2 and U+03C3, are lower-case *)
  law_lower_sigma : to_lower_full 962 = [962%N] ∧ to_lower_full 963 = [963%N];
  (* digits have no case, are not white space, and the ASCII ones are 0-9 *)
  law_digit_caseless : ∀ c, isdigit_char c = true → c ≠ 931%N ∧ to_lower_full c = [c];
  law_digit_not_space : ∀ c, isdigit_char c = true → isspace c = false;
  law_digit_ascii : ∀ c, isdigit_char c = true → (c < 128)%N → (48 ≤ c ≤ 57)%N
}.

(** ** Python string primitives *)

Module Str.

Section WithTables.

Variable U : Unicode.

(** [s.lower()], read from left to right; [before] is what was read.
    Every code point is replaced by its lower-case mapping, except the
    capital sigma, which becomes U+03C2 at the end of a word and U+03C3
    elsewhere. *)
Fixpoint lower_from (before s : pystr) : pystr :=
  match s with
  | [] => []
  | c :: rest =>
      (if bool_decide (c = 931%N)
       then [if final_sigma U before rest then 962%N else 963%N]
       else to_lower_full U c)
      ++ lower_from (before ++ [c]) rest
  end.

(** [s.lower()] *)
Definition lower (s : pystr) : pystr := lower_from [] s.

(** [s.isdigit()]: every character is a digit and there is at least one. *)
Definition isdigit (s : pystr) : bool :=
  match s with
  | [] => false
  | _ => forallb (isdigit_char U) s
  end.

(** [s.split()] with no argument: the maximal runs of characters that
    are not white space, in order. [word] is the run being read, if any. *)
Fixpoint split_from (word : option pystr) (s : pystr) : list pystr :=
  match s with
  | [] => option_list word
  | c :: s' =>
      if isspace U c then option_list word ++ split_from None s'
      else split_from (Some (from_option id [] word ++ [c])) s'
  end.

Definition split (s : pystr) : list pystr := split_from None s.

End WithTables.

(** [len(s)] *)
Definition len (s : pystr) : Z := Z.of_nat (length s).

(** [s.startswith(p)] *)
Fixpoint startswith (s p : pystr) {struct p} : bool :=
  match p, s with
  | [], _ => true
  | _ :: _, [] => false
  | a :: p', b :: s' => bool_decide (a = b) && startswith s' p'
  end.

(** [sub in s]: [sub] occurs in [s] as a contiguous substring. *)
Fixpoint contains (s sub : pystr) : bool :=
  startswith s sub ||
  match s with
  | [] => false
  | _ :: s' => contains s' sub
  end.

(** What [sub in s] means. *)
Definition substring_of (sub s : pystr) : Prop :=
  ∃ pre post : pystr, s = pre ++ sub ++ post.

(** [s1 <= s2]: the lexicographic order of the code points. *)
Fixpoint leb (s1 s2 : pystr) : bool :=
  match s1, s2 with
  | [], _ => true
  | _ :: _, [] => false
  | c1 :: s1', c2 :: s2' => (c1 <? c2)%N || ((c1 =? c2)%N && leb s1' s2')
  end.

Definition le (s1 s2 : pystr) : Prop := leb s1 s2 = true.

Global Instance le_dec : RelDecision le.
Proof. intros s1 s2. unfold le. apply _. Defined.

(** [sorted(l)] on strings: ascending in the order above. *)
Definition sorted (l : list pystr) : list pystr := merge_sort le l.

End Str.

(** ** The vocabulary *)

Definition TECHNICAL_SKILLS : gset pystr := Eval vm_compute in list_to_set (py <$> [
  (* Programming Languages *)
  "python"; "java"; "javascript"; "typescript"; "c++"; "c#"; "ruby"; "php"; "swift"; "golang"; "rust"; "kotlin";
  "scala"; "perl"; "r"; "matlab"; "bash"; "shell"; "sql"; "nosql"; "html"; "css"; "sass"; "less";
  (* Frameworks and Libraries *)
  "django"; "flask"; "fastapi"; "spring"; "react"; "angular"; "vue"; "node.js"; "express"; "laravel"; "symfony";
  "ruby on rails"; "asp.net"; "jquery"; "bootstrap"; "tensorflow"; "pytorch"; "keras"; "scikit-learn"; "pandas";
  "numpy"; "matplotlib"; "seaborn"; "d3.js"; "plotly"; "selenium"; "pytest"; "jest"; "mocha"; "spacy";
  (* Databases *)
  "mysql"; "postgresql"; "mongodb"; "oracle"; "sql server"; "sqlite"; "redis"; "cassandra"; "couchbase";
  "dynamodb"; "firebase"; "neo4j"; "elasticsearch"; "mariadb";
  (* DevOps and Infrastructure *)
  "docker"; "kubernetes"; "jenkins"; "github actions"; "gitlab ci"; "travis ci"; "aws"; "azure"; "gcp";
  "terraform"; "ansible"; "chef"; "puppet"; "vagrant"; "prometheus"; "grafana"; "elk stack"; "nginx"; "apache";
  "linux"; "unix"; "windows server"; "vmware"; "virtualbox";
  (* Version Control *)
  "git"; "github"; "gitlab"; "bitbucket"; "svn"; "mercurial";
  (* Methodologies *)
  "agile"; "scrum"; "kanban"; "waterfall"; "tdd"; "bdd"; "ci/cd"; "devops"; "microservices"; "soa"; "rest";
  "graphql"; "soap"; "grpc";
  (* Other Tech Skills *)
  "machine learning"; "deep learning"; "artificial intelligence"; "data science"; "big data"; "data analysis";
  "data visualization"; "etl"; "data mining"; "nlp"; "computer vision"; "blockchain"; "iot"; "ar/vr";
  "cybersecurity"; "network security"; "cloud computing"; "serverless"; "web development"; "mobile development";
  "responsive design"; "ux/ui"; "seo"; "api design"; "system design"; "distributed systems"; "parallel computing";
  "web scraping"; "data engineering"; "backend"; "frontend"; "full stack"; "qa automation"
]).

(** The vocabulary is a large literal: instance search and [simpl] leave
    it folded. *)
Global Typeclasses Opaque TECHNICAL_SKILLS.
Global Opaque TECHNICAL_SKILLS.

(** ** Exceptions, the store and the monad *)

Inductive exn : Type :=
  | Exception (message : pystr)
  | IndexError (message : pystr)
  | HTTPException (status_code : Z) (detail : pystr).

(** [str(e)], as interpolated by an f-string. *)
Definition str (e : exn) : pystr :=
  match e with
  | Exception m | IndexError m => m
  | HTTPException _ d => d
  end.

Inductive outcome (A : Type) : Type :=
  | Return (a : A)
  | Raised (e : exn).
Arguments Return {A} a.
Arguments Raised {A} e.

(** The mutable objects a call works on: the set bound to
    [extracted_skills] and the lines written to standard output. *)
Record Store : Type := mkStore {
  extracted_skills : gset pystr;
  stdout : list pystr
}.

Definition M (A : Type) : Type := Store → outcome A * Store.

Definition ret {A} (a : A) : M A := λ σ, (Return a, σ).

Definition bind {A B} (m : M A) (k : A → M B) : M B := λ σ,
  match m σ with
  | (Return a, σ') => k a σ'
  | (Raised e, σ') => (Raised e, σ')
  end.

Definition raise {A} (e : exn) : M A := λ σ, (Raised e, σ).

(** [try: body / except Exception as e: handler e]. What [body] did to
    the store before raising stays done. *)
Definition try_except {A} (body : M A) (handler : exn → M A) : M A := λ σ,
  match body σ with
  | (Raised e, σ') => handler e σ'
  | r => r
  end.

Global Instance M_ret : MRet M := @ret.
Global Instance M_bind : MBind M := λ A B k m, bind m k.

Definition pass : M unit := ret tt.

(** [print(line)] *)
Definition print (line : pystr) : M unit := λ σ,
  (Return tt, mkStore (extracted_skills σ) (stdout σ ++ [line])).

(** [extracted_skills = set()] *)
Definition new_set : M unit := λ σ, (Return tt, mkStore ∅ (stdout σ)).

(** [extracted_skills.add(s)] *)
Definition add (s : pystr) : M unit := λ σ,
  (Return tt, mkStore (extracted_skills σ ∪ {[ s ]}) (stdout σ)).

(** Reading the variable [extracted_skills]. *)
Definition get_skills : M (gset pystr) := λ σ, (Return (extracted_skills σ), σ).

(** [for x in l: body x], with no [break] in the body. *)
Fixpoint for_ {A} (l : list A) (body : A → M unit) : M unit :=
  match l with
  | [] => pass
  | x :: l' => body x ;; for_ l' body
  end.

(** [range(n)] *)
Definition range (n : Z) : list Z := Z.of_nat <$> seq 0 (Z.to_nat n).

(** [l[i]] for [0 <= i]: an index past the end raises. *)
Definition getitem {A} (l : list A) (i : Z) : M A :=
  match l !! Z.to_nat i with
  | Some x => ret x
  | None => raise (IndexError (py "index out of range"))
  end.

(** ** The annotation engine *)

(** A generator that is iterated once: it yields some values and then
    either is exhausted or raises. *)
Inductive generator (A : Type) : Type :=
  | Yield (x : A) (rest : generator A)
  | StopIteration
  | Raise (e : exn).
Arguments Yield {A} x rest.
Arguments StopIteration {A}.
Arguments Raise {A} e.

(** [for x in g: body x] *)
Fixpoint for_gen {A} (g : generator A) (body : A → M unit) : M unit :=
  match g with
  | Yield x rest => body x ;; for_gen rest body
  | StopIteration => pass
  | Raise e => raise e
  end.

Module Token.
Record t : Type := mk { text : pystr }.
End Token.

Module Span.
Record t : Type := mk { text : pystr; label_ : pystr }.
End Span.

(** The [Doc] that [nlp(text)] returns: its tokens, [doc.ents] and
    [doc.noun_chunks]. *)
Record Doc : Type := mkDoc {
  tokens : list Token.t;
  ents : list Span.t;
  noun_chunks : generator Span.t
}.

(** The pipeline object [nlp]: [nlp.has_pipe(name)] and [nlp(text)]. *)
Record Language : Type := mkLanguage {
  has_pipe : pystr → bool;
  call : pystr → Doc
}.

(** The order in which Python iterates a set: some enumeration of its
    elements, each once. *)
Record SetOrder : Type := mkSetOrder {
  iter : gset pystr → list pystr;
  iter_perm : ∀ X, iter X ≡ₚ elements X
}.

(** ** Request and response models *)

Record JobDescriptionItem : Type := mkItem {
  job_id : pystr;
  text : pystr
}.

Record SkillsResult : Type := mkResult {
  result_job_id : pystr;
  skills : list pystr;
  count : Z
}.

Record BatchSkillsResponse : Type := mkBatchResponse {
  results : list SkillsResult;
  total_processed : Z
}.

(** ** The extractor *)

Section Extractor.

Variable U : Unicode.
Variable order : SetOrder.
Variable nlp : Language.

(** Lines 83-85: the body of the loop over the tokens. *)
Definition token_body (token : Token.t) : M unit :=
  if bool_decide (Str.lower U (Token.text token) ∈ TECHNICAL_SKILLS)
     && (1 <? Str.len (Token.text token))
  then add (Str.lower U (Token.text token))
  else pass.

(** Lines 88-90: the body of the loop over the vocabulary. *)
Definition phrase_body (text : pystr) (skill : pystr) : M unit :=
  if Str.contains skill (py " ")
     && Str.contains (Str.lower U text) (Str.lower U skill)
  then add (Str.lower U skill)
  else pass.

(** Lines 99-102: the loop over the words of an entity, left at the
    first word that is a skill. *)
Fixpoint word_loop (skill_candidate : pystr) (words : list pystr) : M unit :=
  match words with
  | [] => pass
  | word :: words' =>
      if bool_decide (word ∈ TECHNICAL_SKILLS)
      then add skill_candidate (* break *)
      else word_loop skill_candidate words'
  end.

(** Lines 96-102: the body of the loop over the entities. *)
Definition ent_body (ent : Span.t) : M unit :=
  if bool_decide (Span.label_ ent ∈ [py "ORG"; py "PRODUCT"])
     && (1 <? Str.len (Span.text ent))
     && negb (Str.isdigit U (Span.text ent))
  then
    let skill_candidate := Str.lower U (Span.text ent) in
    word_loop skill_candidate (Str.split U skill_candidate)
  else pass.

(** Lines 109-113: the body of the loop over the noun chunks. *)
Definition chunk_body (chunk : Span.t) : M unit :=
  let chunk_text := Str.lower U (Span.text chunk) in
  for_ (iter order TECHNICAL_SKILLS) (λ skill,
    if Str.contains chunk_text skill && (1 <? Str.len skill)
    then add skill
    else pass).

(** Lines 119-121: the body of the loop over the token positions. *)
Definition bigram_body (doc : Doc) (i : Z) : M unit :=
  t1 ← getitem (tokens doc) i;
  t2 ← getitem (tokens doc) (i + 1);
  let bigram := Str.lower U (Token.text t1 ++ py " " ++ Token.text t2) in
  if bool_decide (bigram ∈ TECHNICAL_SKILLS)
  then add bigram
  else pass.

Definition extract_skills (text : pystr) : M (list pystr) :=
  let doc := call nlp (Str.lower U text) in
  new_set ;;
  for_ (tokens doc) token_body ;;
  for_ (iter order TECHNICAL_SKILLS) (phrase_body text) ;;
  (if has_pipe nlp (py "ner")
   then for_ (ents doc) ent_body
   else pass) ;;
  (if has_pipe nlp (py "parser")
   then
     try_except
       (for_gen (noun_chunks doc) chunk_body)
       (λ e, print (py "Warning: Error while processing noun chunks: " ++ str e))
   else
     for_ (range (Z.of_nat (length (tokens doc)) - 1)) (bigram_body doc)) ;;
  extracted ← get_skills;
  ret (Str.sorted (iter order extracted)).

Definition extract_skills_from_job_description (job_desc : JobDescriptionItem)
  : M SkillsResult :=
  if bool_decide (text job_desc = [])
  then raise (HTTPException 400 (py "Job description text cannot be empty"))
  else
    skills ← extract_skills (text job_desc);
    ret (mkResult (job_id job_desc) skills (Z.of_nat (length skills))).

(** Lines 147-158: the loop over the batch; [results] is the list
    built so far. *)
Fixpoint batch_loop (job_descriptions : list JobDescriptionItem)
    (results : list SkillsResult) : M (list SkillsResult) :=
  match job_descriptions with
  | [] => ret results
  | job_desc :: rest =>
      if bool_decide (text job_desc = [])
      then batch_loop rest results (* continue *)
      else
        skills ← extract_skills (text job_desc);
        batch_loop rest
          (results ++ [mkResult (job_id job_desc) skills (Z.of_nat (length skills))])
  end.

Definition extract_skills_from_batch (job_descriptions : list JobDescriptionItem)
  : M BatchSkillsResponse :=
  if bool_decide (job_descriptions = [])
  then raise (HTTPException 400 (py "Job descriptions list cannot be empty"))
  else
    results ← batch_loop job_descriptions [];
    ret (mkBatchResponse results (Z.of_nat (length results))).

End Extractor.

(** ** Tables and engines used in the examples *)

(** A part of the tables of CPython: the code points below 256, U+0130
    (capital I with dot), U+212A (the Kelvin sign) and all the white
    space. It stands for the interpreter's tables only in the examples,
    whose strings are within that part and hold no capital sigma. *)
Definition example_tables : Unicode.
Proof.
  refine
    {| to_lower_full := λ c,
         if bool_decide (c < 128)%N then [ascii_lower c]
         else if bool_decide (c = 304)%N then [105; 775]%N
         else if bool_decide (c = 931)%N then [963]%N
         else if bool_decide (c = 8490)%N then [107]%N
         else if bool_decide (192 ≤ c ≤ 222 ∧ c ≠ 215)%N then [c + 32]%N
         else [c];
       final_sigma := λ _ _, false;
       isspace := λ c,
         bool_decide (9 ≤ c ≤ 13 ∨ 28 ≤ c ≤ 32 ∨ c = 133 ∨ c = 160 ∨ c = 5760
                      ∨ 8192 ≤ c ≤ 8202 ∨ c = 8232 ∨ c = 8233 ∨ c = 8239
                      ∨ c = 8287 ∨ c = 12288)%N;
       isdigit_char := λ c,
         bool_decide (48 ≤ c ≤ 57 ∨ c = 178 ∨ c = 179 ∨ c = 185)%N |}.
  - intros c Hc. by rewrite bool_decide_eq_true_2.
  - intros c. by repeat case_bool_decide.
  - intros c. repeat case_bool_decide; try done.
    intros Hall. apply Forall_cons_1 in Hall as [_ Hall].
    apply Forall_cons_1 in Hall as [? _]. lia.
  - intros c d Hd.
    assert ((d < 128 ∧ ¬ 65 ≤ d ≤ 90) ∨ d = 775 ∨ d = 963
            ∨ (224 ≤ d ≤ 254 ∧ d ≠ 247)
            ∨ (128 ≤ d ∧ d ≠ 304 ∧ d ≠ 931 ∧ d ≠ 8490 ∧ ¬ (192 ≤ d ≤ 222 ∧ d ≠ 215)))%N
      as Hcases.
    { revert Hd. unfold ascii_lower.
      repeat case_bool_decide; intros Hd; set_unfold in Hd; lia. }
    clear Hd. split; [lia|]. unfold ascii_lower.
    repeat case_bool_decide; (done || lia).
  - by vm_compute.
  - intros c Hc%bool_decide_eq_true. split; [lia|]. unfold ascii_lower.
    repeat case_bool_decide; (done || lia).
  - intros c Hc%bool_decide_eq_true. apply bool_decide_eq_false. lia.
  - intros c Hc%bool_decide_eq_true ?. lia.
Defined.

(** The set order that enumerates a set the way [elements] does. *)
Definition elements_order : SetOrder := mkSetOrder elements (λ X, reflexivity _).

(** A tokenizer-only engine: tokens are the whitespace-separated words,
    no pipe is present. *)
Definition blank_engine : Language :=
  mkLanguage (λ _, false)
    (λ text, mkDoc (Token.mk <$> Str.split example_tables text) [] (Raise (Exception (py "no parser")))).

Definition empty_store : Store := mkStore ∅ [].

(** * Specification-level definitions *)


(** ** Running statements *)

(** [adds m X]: run from any store, [m] returns normally, writes nothing
    and leaves [extracted_skills] enlarged by exactly [X]. *)
Definition adds (m : M unit) (X : gset pystr) : Prop :=
  ∀ σ, m σ = (Return tt, mkStore (extracted_skills σ ∪ X) (stdout σ)).

(** The values a generator yields, and the exception that ends it. *)
Fixpoint yielded {A} (g : generator A) : list A :=
  match g with
  | Yield x rest => x :: yielded rest
  | StopIteration | Raise _ => []
  end.

Fixpoint raised {A} (g : generator A) : option exn :=
  match g with
  | Yield _ rest => raised rest
  | StopIteration => None
  | Raise e => Some e
  end.

(** ** What each strategy matches *)

Section Matches.

Variable U : Unicode.
Variable nlp : Language.

(** The set each loop body contributes. *)
Definition token_adds (token : Token.t) : gset pystr :=
  if bool_decide (Str.lower U (Token.text token) ∈ TECHNICAL_SKILLS)
     && (1 <? Str.len (Token.text token))
  then {[ Str.lower U (Token.text token) ]} else ∅.

Definition phrase_adds (text skill : pystr) : gset pystr :=
  if Str.contains skill (py " ") && Str.contains (Str.lower U text) (Str.lower U skill)
  then {[ Str.lower U skill ]} else ∅.

Definition ent_adds (ent : Span.t) : gset pystr :=
  if bool_decide (Span.label_ ent ∈ [py "ORG"; py "PRODUCT"])
     && (1 <? Str.len (Span.text ent))
     && negb (Str.isdigit U (Span.text ent))
     && bool_decide (Exists (.∈ TECHNICAL_SKILLS)
                       (Str.split U (Str.lower U (Span.text ent))))
  then {[ Str.lower U (Span.text ent) ]} else ∅.

Definition chunk_adds (chunk : Span.t) : gset pystr :=
  ⋃ ((λ skill : pystr,
        if Str.contains (Str.lower U (Span.text chunk)) skill && (1 <? Str.len skill)
        then {[ skill ]} else ∅) <$> elements TECHNICAL_SKILLS).

Definition bigram_adds (doc : Doc) (i : Z) : gset pystr :=
  match tokens doc !! Z.to_nat i, tokens doc !! Z.to_nat (i + 1) with
  | Some t1, Some t2 =>
      let bigram := Str.lower U (Token.text t1 ++ py " " ++ Token.text t2) in
      if bool_decide (bigram ∈ TECHNICAL_SKILLS) then {[ bigram ]} else ∅
  | _, _ => ∅
  end.

Definition token_set (doc : Doc) : gset pystr := ⋃ (token_adds <$> tokens doc).
Definition phrase_set (text : pystr) : gset pystr :=
  ⋃ (phrase_adds text <$> elements TECHNICAL_SKILLS).
Definition entity_set (doc : Doc) : gset pystr := ⋃ (ent_adds <$> ents doc).
Definition chunk_set (chunks : list Span.t) : gset pystr := ⋃ (chunk_adds <$> chunks).
Definition bigram_set (doc : Doc) : gset pystr :=
  ⋃ (bigram_adds doc <$> range (Z.of_nat (length (tokens doc)) - 1)).

(** The set [extracted_skills] holds when [extract_skills] reaches its
    last line. *)
Definition matches (text : pystr) : gset pystr :=
  let doc := call nlp (Str.lower U text) in
  token_set doc ∪ phrase_set text
  ∪ (if has_pipe nlp (py "ner") then entity_set doc else ∅)
  ∪ (if has_pipe nlp (py "parser")
     then chunk_set (yielded (noun_chunks doc))
     else bigram_set doc).

(** The lines [extract_skills] prints. *)
Definition warnings (text : pystr) : list pystr :=
  let doc := call nlp (Str.lower U text) in
  if has_pipe nlp (py "parser") then
    match raised (noun_chunks doc) with
    | Some e => [py "Warning: Error while processing noun chunks: " ++ str e]
    | None => []
    end
  else [].

End Matches.

(** ** The matches, read as statements about the document *)

(** A token longer than one character whose lower-cased text is a
    vocabulary entry. *)
Definition token_match U (doc : Doc) (s : pystr) : Prop :=
  ∃ token, token ∈ tokens doc
    ∧ Str.lower U (Token.text token) ∈ TECHNICAL_SKILLS
    ∧ 1 < Str.len (Token.text token)
    ∧ s = Str.lower U (Token.text token).

(** A vocabulary entry with a space in it that occurs in the lower-cased
    text. *)
Definition phrase_match U (text s : pystr) : Prop :=
  ∃ skill, skill ∈ TECHNICAL_SKILLS
    ∧ Str.substring_of (py " ") skill
    ∧ Str.substring_of (Str.lower U skill) (Str.lower U text)
    ∧ s = Str.lower U skill.

(** The lower-cased text of an ORG or PRODUCT entity, longer than one
    character and not a number, one of whose words is a vocabulary entry. *)
Definition entity_match U (doc : Doc) (s : pystr) : Prop :=
  ∃ ent, ent ∈ ents doc
    ∧ Span.label_ ent ∈ [py "ORG"; py "PRODUCT"]
    ∧ 1 < Str.len (Span.text ent)
    ∧ Str.isdigit U (Span.text ent) = false
    ∧ (∃ word, word ∈ Str.split U (Str.lower U (Span.text ent)) ∧ word ∈ TECHNICAL_SKILLS)
    ∧ s = Str.lower U (Span.text ent).

(** A vocabulary entry longer than one character that occurs in the
    lower-cased text of one of the chunks. *)
Definition chunk_match U (chunks : list Span.t) (s : pystr) : Prop :=
  ∃ chunk, chunk ∈ chunks
    ∧ s ∈ TECHNICAL_SKILLS
    ∧ Str.substring_of s (Str.lower U (Span.text chunk))
    ∧ 1 < Str.len s.

(** Two adjacent tokens whose lower-cased texts, joined by one space,
    are a vocabulary entry. *)
Definition bigram_match U (doc : Doc) (s : pystr) : Prop :=
  ∃ (i : nat) t1 t2, tokens doc !! i = Some t1
    ∧ tokens doc !! S i = Some t2
    ∧ s = Str.lower U (Token.text t1 ++ py " " ++ Token.text t2)
    ∧ s ∈ TECHNICAL_SKILLS.

(** ** What is asked of an engine *)

(** The spans of a [Doc] are pieces of the text it annotates: the text of
    every token, entity and noun chunk occurs in it. *)
Definition spans_within (text : pystr) (doc : Doc) : Prop :=
  (∀ token, token ∈ tokens doc → Str.substring_of (Token.text token) text)
  ∧ (∀ ent, ent ∈ ents doc → Str.substring_of (Span.text ent) text)
  ∧ (∀ chunk, chunk ∈ yielded (noun_chunks doc) → Str.substring_of (Span.text chunk) text).

(** ** More engines used in the examples *)

(** An engine with the given pipes that annotates every text the same way. *)
Definition fixed_engine (pipes : list pystr) (doc : Doc) : Language :=
  mkLanguage (λ name, bool_decide (name ∈ pipes)) (λ _, doc).

(** A document with one ORG entity that is not a vocabulary entry. *)
Definition kafka_doc : Doc :=
  mkDoc [Token.mk (py "apache"); Token.mk (py "kafka"); Token.mk (py "inc")]
        [Span.mk (py "apache kafka inc") (py "ORG")]
        (Raise (Exception (py "no dependency parse"))).

(** A document with one PRODUCT entity whose two words are separated by
    a no-break space, U+00A0, and whose noun-chunk extraction raises. *)
Definition no_break_space_doc : Doc :=
  mkDoc [] [Span.mk (py "apache" ++ [160%N] ++ py "kafka") (py "PRODUCT")]
        (Raise (Exception (py "no dependency parse"))).

(** A document whose noun-chunk extraction raises. *)
Definition broken_parser_doc : Doc :=
  mkDoc [Token.mk (py "machine"); Token.mk (py "learning")] []
        (Raise (Exception (py "no dependency parse"))).

Definition example_batch : list JobDescriptionItem :=
  [mkItem (py "1") (py "We use Python and Docker");
   mkItem (py "2") [];
   mkItem (py "3") (py "Experience with React.js and PostgreSQL")].

(** The result the batch handler builds for one item. *)
Definition result_for U (nlp : Language) (job_desc : JobDescriptionItem) : SkillsResult :=
  let skills := Str.sorted (elements (matches U nlp (text job_desc))) in
  mkResult (job_id job_desc) skills (Z.of_nat (length skills)).

(** ** Module start-up *)

(** The two functions of the [spacy] module that start-up calls:
    [spacy.load(name)] and [spacy.blank(lang)]. Either may raise. *)
Record Spacy : Type := mkSpacy {
  load : pystr → M Language;
  blank : pystr → M Language
}.

(** Lines 13-19: the value bound to [nlp] when the module is loaded. The
    bare [except:] catches every exception. *)
Definition load_nlp (spacy : Spacy) : M Language :=
  try_except
    (load spacy (py "en_core_web_sm"))
    (λ _,
       nlp ← blank spacy (py "en");
       print (py "Warning: en_core_web_sm model not found. Using blank model instead.") ;;
       print (py "Install the model with: python -m spacy download en_core_web_sm") ;;
       ret nlp).

(** A [spacy] whose model is not installed. *)
Definition spacy_without_model : Spacy :=
  mkSpacy (λ _, raise (Exception (py "Can't find model"))) (λ _, ret blank_engine).

(** A document with one noun chunk; no token is "java". *)
Definition javascript_doc : Doc :=
  mkDoc [Token.mk (py "a"); Token.mk (py "javascript"); Token.mk (py "developer")] []
        (Yield (Span.mk (py "a javascript developer") (py "NP")) StopIteration).

(** * Properties *)

(** ** Strings *)

Module StrFacts.
Import Str.

Lemma startswith_spec s p : startswith s p = true ↔ ∃ post, s = p ++ post.
Proof.
  revert s. induction p as [|a p IH]; intros s; simpl.
  - split; [intros _; by exists s|done].
  - destruct s as [|b s]; simpl.
    + split; [done|]. by intros [post ?].
    + rewrite andb_true_iff, bool_decide_eq_true, IH. split.
      * intros [-> [post ->]]. by exists post.
      * intros [post Heq]. injection Heq as -> ->. eauto.
Qed.

Lemma contains_spec s sub : contains s sub = true ↔ substring_of sub s.
Proof.
  unfold substring_of. induction s as [|c s IH]; simpl.
  - rewrite orb_false_r, startswith_spec. split.
    + intros [post ->]. by exists [], post.
    + intros [[|??] [post Heq]]; [by exists post|done].
  - rewrite orb_true_iff, startswith_spec, IH. split.
    + intros [[post ->]|(pre & post & ->)].
      * by exists [], post.
      * by exists (c :: pre), post.
    + intros ([|c' pre] & post & Heq).
      * left. by exists post.
      * right. injection Heq as -> ->. eauto.
Qed.

Lemma substring_of_empty sub : substring_of sub [] → sub = [].
Proof.
  intros ([|??] & post & Heq); [|done].
  by destruct sub.
Qed.

(** *** The order *)

Lemma leb_refl s : leb s s = true.
Proof.
  induction s as [|c s IH]; [done|]. simpl.
  by rewrite N.eqb_refl, IH, orb_true_r.
Qed.

Lemma leb_cons c1 s1 c2 s2 :
  leb (c1 :: s1) (c2 :: s2) = true ↔ (c1 < c2)%N ∨ (c1 = c2 ∧ leb s1 s2 = true).
Proof. simpl. by rewrite orb_true_iff, andb_true_iff, N.ltb_lt, N.eqb_eq. Qed.

Global Instance le_refl : Reflexive le.
Proof. intros s. apply leb_refl. Qed.

Global Instance le_trans : Transitive le.
Proof.
  unfold le. intros s1. induction s1 as [|c1 s1 IH]; intros [|c2 s2] [|c3 s3]; try done.
  rewrite !leb_cons. intros [?|[-> ?]] [?|[-> ?]]; try (left; lia).
  right. split; [done|]. by eapply IH.
Qed.

Global Instance le_antisym : AntiSymm (=) le.
Proof.
  unfold le. intros s1. induction s1 as [|c1 s1 IH]; intros [|c2 s2]; try done.
  rewrite !leb_cons. intros [?|[-> ?]] [?|[? ?]]; try lia.
  f_equal. by apply IH.
Qed.

Global Instance le_total : Total le.
Proof.
  unfold le. intros s1. induction s1 as [|c1 s1 IH]; intros [|c2 s2]; try by (left + right).
  rewrite !leb_cons.
  destruct (N.lt_trichotomy c1 c2) as [?|[->|?]]; [by left; left| |by right; left].
  destruct (IH s2); [left|right]; by right.
Qed.

Lemma sorted_perm l : sorted l ≡ₚ l.
Proof. apply merge_sort_Permutation. Qed.

Lemma sorted_strongly l : StronglySorted le (sorted l).
Proof. apply (StronglySorted_merge_sort _). Qed.

(** [sorted] does not depend on the order of its argument. *)
Lemma sorted_unique l1 l2 : l1 ≡ₚ l2 → sorted l1 = sorted l2.
Proof.
  intros Hperm. apply (StronglySorted_unique le); try apply sorted_strongly.
  by rewrite !sorted_perm.
Qed.

Lemma sorted_of_sorted l : StronglySorted le l → sorted l = l.
Proof.
  intros Hl. apply (StronglySorted_unique le); [apply sorted_strongly|done|].
  apply sorted_perm.
Qed.

Lemma elem_of_sorted s l : s ∈ sorted l ↔ s ∈ l.
Proof. by rewrite sorted_perm. Qed.

(** *** Lower-casing *)

Section WithTables.

Variable U : Unicode.




Lemma lower_from_ascii before s :
  Forall (λ c, (c < 128)%N) s → lower_from U before s = ascii_lower <$> s.
Proof.
  intros Hs. revert before. induction Hs as [|c s Hc _ IH]; intros before; [done|].
  simpl. rewrite bool_decide_eq_false_2 by lia.
  by rewrite (law_lower_ascii U c Hc), IH.
Qed.

Lemma lower_ascii s :
  Forall (λ c, (c < 128)%N) s → lower U s = ascii_lower <$> s.
Proof. apply lower_from_ascii. Qed.

Lemma lower_from_digits before s :
  forallb (isdigit_char U) s = true → lower_from U before s = s.
Proof.
  revert before. induction s as [|c s IH]; intros before; [done|]. simpl.
  intros [[Hne Heq]%(law_digit_caseless U) Hs]%andb_true_iff.
  by rewrite bool_decide_eq_false_2, Heq, IH.
Qed.

Lemma length_lower_from before s :
  (length s ≤ length (lower_from U before s))%nat.
Proof.
  revert before. induction s as [|c s IH]; intros before; simpl; [done|].
  rewrite length_app. specialize (IH (before ++ [c])).
  case_bool_decide; simpl; [lia|].
  pose proof (law_lower_nonempty U c). destruct (to_lower_full U c); [done|simpl; lia].
Qed.

Lemma length_lower_from_ascii before s :
  Forall (λ d, (d < 128)%N) (lower_from U before s) →
  length (lower_from U before s) = length s.
Proof.
  revert before. induction s as [|c s IH]; intros before; simpl; [done|].
  intros [Hc Hs]%Forall_app. rewrite length_app, (IH _ Hs).
  case_bool_decide; [done|]. by rewrite (law_lower_ascii_image U c Hc).
Qed.

(** Lower-casing never shortens a string. *)
Lemma len_lower_le s : len s ≤ len (lower U s).
Proof. unfold len. pose proof (length_lower_from [] s). unfold lower. lia. Qed.

(** When the lower-casing is ASCII it has the length of the string. *)
Lemma len_lower_ascii s :
  Forall (λ d, (d < 128)%N) (lower U s) → len (lower U s) = len s.
Proof. intros Hs. unfold len, lower. by rewrite length_lower_from_ascii. Qed.

End WithTables.

End StrFacts.

(** ** The vocabulary *)

(** Every entry is ASCII, holds no capital letter and is not a number. *)
Lemma vocabulary_ascii skill :
  skill ∈ TECHNICAL_SKILLS →
  Forall (λ c, (c < 128)%N) skill
  ∧ ascii_lower <$> skill = skill
  ∧ ¬ (skill ≠ [] ∧ Forall (λ c, (48 ≤ c ≤ 57)%N) skill).
Proof.
  revert skill.
  change (set_Forall (λ skill, Forall (λ c, (c < 128)%N) skill
                               ∧ ascii_lower <$> skill = skill
                               ∧ ¬ (skill ≠ [] ∧ Forall (λ c, (48 ≤ c ≤ 57)%N) skill))
            TECHNICAL_SKILLS).
  apply (bool_decide_unpack _). by vm_compute.
Qed.

Lemma vocabulary_lower U skill : skill ∈ TECHNICAL_SKILLS → Str.lower U skill = skill.
Proof.
  intros (Hascii & Hlower & _)%vocabulary_ascii.
  by rewrite StrFacts.lower_ascii.
Qed.

Lemma vocabulary_no_space : py " " ∉ TECHNICAL_SKILLS.
Proof. apply (bool_decide_unpack _). by vm_compute. Qed.

Lemma vocabulary_no_empty : [] ∉ TECHNICAL_SKILLS.
Proof. apply (bool_decide_unpack _). by vm_compute. Qed.

(** ** Running statements *)

Lemma bind_run {A B} (m : M A) (k : A → M B) σ :
  (m ≫= k) σ =
    match m σ with
    | (Return a, σ') => k a σ'
    | (Raised e, σ') => (Raised e, σ')
    end.
Proof. reflexivity. Qed.

Lemma adds_pass : adds pass ∅.
Proof. intros [X out]. unfold pass, ret. simpl. by rewrite (right_id_L ∅ (∪)). Qed.

Lemma adds_add s : adds (add s) {[ s ]}.
Proof. by intros σ. Qed.

Lemma adds_seq m1 m2 X1 X2 : adds m1 X1 → adds m2 X2 → adds (m1 ;; m2) (X1 ∪ X2).
Proof.
  intros H1 H2 σ. rewrite bind_run, H1, H2. simpl. by rewrite (assoc_L (∪)).
Qed.

Lemma adds_for {A : Type} (l : list A) (body : A → M unit) (G : A → gset pystr) :
  (∀ x, x ∈ l → adds (body x) (G x)) → adds (for_ l body) (⋃ (G <$> l)).
Proof.
  induction l as [|x l IH]; intros Hbody; simpl.
  - apply adds_pass.
  - apply adds_seq; [apply Hbody; left|].
    apply IH. intros y Hy. apply Hbody. by right.
Qed.

Lemma adds_eq m X Y : X = Y → adds m X → adds m Y.
Proof. by intros ->. Qed.

Lemma for_gen_run {A : Type} (g : generator A) (body : A → M unit) (G : A → gset pystr) σ :
  (∀ x, x ∈ yielded g → adds (body x) (G x)) →
  for_gen g body σ =
    (from_option Raised (Return tt) (raised g),
     mkStore (extracted_skills σ ∪ ⋃ (G <$> yielded g)) (stdout σ)).
Proof.
  revert σ. induction g as [x rest IH| |e]; intros σ Hbody; simpl.
  - rewrite bind_run, (Hbody x) by left. rewrite IH.
    + simpl. by rewrite (assoc_L (∪)).
    + intros y Hy. apply Hbody. by right.
  - by rewrite adds_pass.
  - unfold raise. destruct σ. simpl. by rewrite (right_id_L ∅ (∪)).
Qed.

Lemma union_list_fmap_perm {A : Type} (G : A → gset pystr) (l1 l2 : list A) :
  l1 ≡ₚ l2 → ⋃ (G <$> l1) = ⋃ (G <$> l2).
Proof.
  intros Hperm. apply set_eq. intros s. rewrite !elem_of_union_list.
  by setoid_rewrite Hperm.
Qed.

Lemma elem_of_union_list_fmap {A : Type} (G : A → gset pystr) (l : list A) (s : pystr) :
  s ∈ ⋃ (G <$> l) ↔ ∃ x, x ∈ l ∧ s ∈ G x.
Proof.
  rewrite elem_of_union_list. split.
  - intros (X & (x & -> & Hx)%list_elem_of_fmap & Hs). eauto.
  - intros (x & Hx & Hs). exists (G x). split; [|done].
    apply list_elem_of_fmap. eauto.
Qed.

(** ** The loop bodies add what the sets above say *)

Section Bodies.

Variable U : Unicode.
Variable order : SetOrder.

Lemma adds_token_body token : adds (token_body U token) (token_adds U token).
Proof.
  unfold token_body, token_adds.
  case (_ && _); [apply adds_add|apply adds_pass].
Qed.

Lemma adds_phrase_body text skill :
  adds (phrase_body U text skill) (phrase_adds U text skill).
Proof.
  unfold phrase_body, phrase_adds.
  case (_ && _); [apply adds_add|apply adds_pass].
Qed.

Lemma adds_word_loop skill_candidate words :
  adds (word_loop skill_candidate words)
    (if bool_decide (Exists (.∈ TECHNICAL_SKILLS) words)
     then {[ skill_candidate ]} else ∅).
Proof.
  induction words as [|word words IH]; cbn [word_loop].
  - rewrite bool_decide_eq_false_2; [apply adds_pass|]. by intros ?%Exists_nil.
  - destruct (decide (word ∈ TECHNICAL_SKILLS)) as [Hword|Hword].
    + rewrite (bool_decide_eq_true_2 (word ∈ _)) by done.
      rewrite bool_decide_eq_true_2 by (by left). apply adds_add.
    + rewrite (bool_decide_eq_false_2 (word ∈ _)) by done.
      eapply adds_eq; [|exact IH].
      apply (f_equal (λ b : bool, if b then _ else _)), bool_decide_ext.
      rewrite Exists_cons. tauto.
Qed.

Lemma adds_ent_body ent : adds (ent_body U ent) (ent_adds U ent).
Proof.
  unfold ent_body, ent_adds.
  case (_ && _ && _); simpl; [apply adds_word_loop|apply adds_pass].
Qed.

Lemma adds_chunk_body chunk : adds (chunk_body U order chunk) (chunk_adds U chunk).
Proof.
  unfold chunk_body, chunk_adds.
  rewrite <-(union_list_fmap_perm _ _ _ (iter_perm order TECHNICAL_SKILLS)).
  apply adds_for. intros skill _.
  case (_ && _); [apply adds_add|apply adds_pass].
Qed.

Lemma elem_of_range n i : i ∈ range n ↔ 0 ≤ i < n.
Proof.
  unfold range. rewrite list_elem_of_fmap. setoid_rewrite elem_of_seq. split.
  - intros (k & -> & Hk). lia.
  - intros Hi. exists (Z.to_nat i). lia.
Qed.

Lemma adds_bigram_body doc i :
  i ∈ range (Z.of_nat (length (tokens doc)) - 1) →
  adds (bigram_body U doc i) (bigram_adds U doc i).
Proof.
  rewrite elem_of_range. intros Hi.
  destruct (lookup_lt_is_Some_2 (tokens doc) (Z.to_nat i)) as [t1 Ht1]; [lia|].
  destruct (lookup_lt_is_Some_2 (tokens doc) (Z.to_nat (i + 1))) as [t2 Ht2]; [lia|].
  unfold bigram_body, bigram_adds, getitem. rewrite Ht1, Ht2.
  intros σ. rewrite bind_run. cbn [ret]. rewrite bind_run. cbn [ret].
  case_bool_decide; [apply adds_add|apply adds_pass].
Qed.

(** The whole function: it returns normally, with the sorted elements
    of [matches], whatever the store and the set order. *)
Lemma extract_skills_run nlp text σ :
  extract_skills U order nlp text σ =
    (Return (Str.sorted (elements (matches U nlp text))),
     mkStore (matches U nlp text) (stdout σ ++ warnings U nlp text)).
Proof.
  unfold extract_skills, matches, warnings.
  set (doc := call nlp (Str.lower U text)).
  rewrite bind_run. simpl.
  rewrite bind_run, (adds_for _ _ _ (λ x _, adds_token_body x)). simpl.
  rewrite bind_run, (adds_for _ _ _ (λ x _, adds_phrase_body text x)). simpl.
  rewrite (union_list_fmap_perm _ _ _ (iter_perm order TECHNICAL_SKILLS)).
  fold (token_set U doc) (phrase_set U text).
  rewrite (left_id_L ∅ (∪)).
  rewrite bind_run.
  assert ((if has_pipe nlp (py "ner") then for_ (ents doc) (ent_body U) else pass)
            (mkStore (token_set U doc ∪ phrase_set U text) (stdout σ))
          = (Return tt, mkStore (token_set U doc ∪ phrase_set U text
               ∪ (if has_pipe nlp (py "ner") then entity_set U doc else ∅)) (stdout σ)))
    as ->.
  { destruct (has_pipe nlp (py "ner")).
    - by rewrite (adds_for _ _ _ (λ x _, adds_ent_body x)).
    - by rewrite adds_pass. }
  rewrite bind_run.
  destruct (has_pipe nlp (py "parser")).
  - unfold try_except.
    rewrite (for_gen_run _ _ _ _ (λ x _, adds_chunk_body x)). simpl.
    fold (chunk_set U (yielded (noun_chunks doc))).
    destruct (raised (noun_chunks doc)) as [e|]; simpl.
    + rewrite bind_run. simpl. unfold ret. do 2 f_equal.
      apply StrFacts.sorted_unique, iter_perm.
    + rewrite (right_id_L [] (++)), bind_run. simpl. unfold ret. do 2 f_equal.
      apply StrFacts.sorted_unique, iter_perm.
  - rewrite (adds_for _ _ _ (adds_bigram_body doc)). simpl.
    fold (bigram_set U doc).
    rewrite (right_id_L [] (++)), bind_run. simpl. unfold ret. do 2 f_equal.
    apply StrFacts.sorted_unique, iter_perm.
Qed.

End Bodies.

(** ** Membership in the match sets *)

Lemma elem_of_if_singleton (b : bool) (x s : pystr) :
  s ∈ (if b then {[ x ]} else ∅ : gset pystr) ↔ b = true ∧ s = x.
Proof.
  destruct b.
  - rewrite elem_of_singleton. tauto.
  - rewrite elem_of_empty. split; [done|]. by intros [? _].
Qed.

Lemma elem_of_token_set U doc s : s ∈ token_set U doc ↔ token_match U doc s.
Proof.
  unfold token_set, token_match. rewrite elem_of_union_list_fmap.
  apply exist_proper. intros token. unfold token_adds.
  rewrite elem_of_if_singleton, andb_true_iff, bool_decide_eq_true, Z.ltb_lt.
  tauto.
Qed.

Lemma elem_of_phrase_set U text s : s ∈ phrase_set U text ↔ phrase_match U text s.
Proof.
  unfold phrase_set, phrase_match. rewrite elem_of_union_list_fmap.
  apply exist_proper. intros skill. unfold phrase_adds.
  rewrite elem_of_if_singleton, andb_true_iff, !StrFacts.contains_spec, elem_of_elements.
  tauto.
Qed.

Lemma elem_of_entity_set U doc s : s ∈ entity_set U doc ↔ entity_match U doc s.
Proof.
  unfold entity_set, entity_match. rewrite elem_of_union_list_fmap.
  apply exist_proper. intros ent. unfold ent_adds.
  rewrite elem_of_if_singleton, !andb_true_iff, !bool_decide_eq_true, Z.ltb_lt,
    negb_true_iff, Exists_exists.
  tauto.
Qed.

Lemma elem_of_chunk_set U chunks s : s ∈ chunk_set U chunks ↔ chunk_match U chunks s.
Proof.
  unfold chunk_set, chunk_match. rewrite elem_of_union_list_fmap.
  apply exist_proper. intros chunk. unfold chunk_adds.
  rewrite elem_of_union_list_fmap. split.
  - intros (Hchunk & skill & Hskill & Hs). revert Hs.
    rewrite elem_of_if_singleton, andb_true_iff, StrFacts.contains_spec, Z.ltb_lt.
    intros [[? ?] ->]. by rewrite <-elem_of_elements.
  - intros (Hchunk & Hs & Hsub & Hlen). split; [done|]. exists s.
    rewrite elem_of_elements, elem_of_if_singleton, andb_true_iff,
      StrFacts.contains_spec, Z.ltb_lt.
    tauto.
Qed.

Lemma elem_of_bigram_set U doc s : s ∈ bigram_set U doc ↔ bigram_match U doc s.
Proof.
  unfold bigram_set, bigram_match. rewrite elem_of_union_list_fmap. split.
  - intros (i & [Hi _]%elem_of_range & Hs). unfold bigram_adds in Hs.
    destruct (tokens doc !! Z.to_nat i) as [t1|] eqn:Ht1;
      [|by apply elem_of_empty in Hs].
    destruct (tokens doc !! Z.to_nat (i + 1)) as [t2|] eqn:Ht2;
      [|by apply elem_of_empty in Hs].
    apply elem_of_if_singleton in Hs as [Hin%bool_decide_eq_true ->].
    exists (Z.to_nat i), t1, t2. split; [done|]. split; [|done].
    by replace (S (Z.to_nat i)) with (Z.to_nat (i + 1)) by lia.
  - intros (i & t1 & t2 & Ht1 & Ht2 & -> & Hin).
    pose proof (lookup_lt_Some _ _ _ Ht2) as Hlt.
    exists (Z.of_nat i). split; [apply elem_of_range; lia|].
    unfold bigram_adds.
    replace (Z.to_nat (Z.of_nat i + 1)) with (S i) by lia.
    rewrite Nat2Z.id, Ht1, Ht2. cbn zeta.
    by rewrite elem_of_if_singleton, bool_decide_eq_true.
Qed.

Lemma elem_of_matches U nlp text s :
  let doc := call nlp (Str.lower U text) in
  s ∈ matches U nlp text ↔
    token_match U doc s
    ∨ phrase_match U text s
    ∨ (has_pipe nlp (py "ner") = true ∧ entity_match U doc s)
    ∨ (has_pipe nlp (py "parser") = true ∧ chunk_match U (yielded (noun_chunks doc)) s)
    ∨ (has_pipe nlp (py "parser") = false ∧ bigram_match U doc s).
Proof.
  intros doc. unfold matches. fold doc.
  rewrite !elem_of_union, elem_of_token_set, elem_of_phrase_set.
  destruct (has_pipe nlp (py "ner")), (has_pipe nlp (py "parser"));
    rewrite ?elem_of_entity_set, ?elem_of_chunk_set, ?elem_of_bigram_set,
      ?elem_of_empty;
    intuition discriminate.
Qed.

(** What [extract_skills] returns, from any store and in any set order. *)
Lemma extract_skills_returns U order nlp text σ :
  ∃ r σ', extract_skills U order nlp text σ = (Return r, σ')
    ∧ r = Str.sorted (elements (matches U nlp text))
    ∧ stdout σ' = stdout σ ++ warnings U nlp text
    ∧ ∀ s, s ∈ r ↔ s ∈ matches U nlp text.
Proof.
  eexists _, _. split; [apply extract_skills_run|].
  split; [done|]. split; [done|].
  intros s. by rewrite StrFacts.elem_of_sorted, elem_of_elements.
Qed.

(** * The extractor's properties *)

Lemma vocabulary_elem (s : pystr) :
  bool_decide (s ∈ TECHNICAL_SKILLS) = true → s ∈ TECHNICAL_SKILLS.
Proof. apply bool_decide_eq_true. Qed.

(** C1. For every text, engine, set order and store, [extract_skills]
    returns a list that is in ascending order and has no duplicates:
    sorting the set of its elements, enumerated in any order, gives the
    list back. *)
Theorem extract_skills_sorted_set U order nlp text σ :
  ∃ r σ', extract_skills U order nlp text σ = (Return r, σ')
    ∧ StronglySorted Str.le r
    ∧ NoDup r
    ∧ ∀ order', Str.sorted (iter order' (list_to_set r)) = r.
Proof.
  destruct (extract_skills_returns U order nlp text σ) as (r & σ' & Hrun & Hr & _).
  exists r, σ'. split; [done|].
  assert (StronglySorted Str.le r) as Hsorted.
  { rewrite Hr. apply StrFacts.sorted_strongly. }
  assert (NoDup r) as Hdup.
  { rewrite Hr, StrFacts.sorted_perm. apply NoDup_elements. }
  split; [done|]. split; [done|]. intros order'.
  rewrite <-(StrFacts.sorted_of_sorted r Hsorted) at 2.
  apply StrFacts.sorted_unique.
  rewrite iter_perm. by apply elements_list_to_set.
Qed.

(** C2. A vocabulary entry that contains a space and occurs in the
    lower-cased text is in the list [extract_skills] returns, whatever
    pipes the engine has. *)
Theorem phrase_in_text_is_extracted U order nlp text σ entry :
  entry ∈ TECHNICAL_SKILLS →
  Str.substring_of (py " ") entry →
  Str.substring_of entry (Str.lower U text) →
  ∃ r σ', extract_skills U order nlp text σ = (Return r, σ') ∧ entry ∈ r.
Proof.
  intros Hentry Hspace Hsub.
  destruct (extract_skills_returns U order nlp text σ) as (r & σ' & Hrun & _ & _ & Hr).
  exists r, σ'. split; [done|].
  apply Hr, elem_of_matches. right; left.
  exists entry. by rewrite (vocabulary_lower U entry Hentry).
Qed.

Lemma phrase_in_text_is_extracted_witness :
  ∃ r σ', extract_skills example_tables elements_order blank_engine
            (py "Deep Learning rocks") empty_store = (Return r, σ')
    ∧ py "deep learning" ∈ r.
Proof.
  apply phrase_in_text_is_extracted.
  - apply vocabulary_elem. vm_compute. reflexivity.
  - exists (py "deep"), (py "learning"). reflexivity.
  - exists [], (py " rocks"). reflexivity.
Defined.

(** C9. Two calls on the same text with the same engine return the same
    list, whatever the stores they start from and whatever the orders in
    which their sets are iterated. *)
Theorem extract_skills_deterministic U order1 order2 nlp text σ1 σ2 :
  ∃ r, (extract_skills U order1 nlp text σ1).1 = Return r
     ∧ (extract_skills U order2 nlp text σ2).1 = Return r.
Proof.
  exists (Str.sorted (elements (matches U nlp text))).
  by rewrite !extract_skills_run.
Qed.


(** C3. A token of the lower-cased text that is longer than one
    character and whose lower-cased text is a vocabulary entry is in the
    list [extract_skills] returns; a token of at most one character is
    not added by the loop over the tokens. *)
Theorem token_exact_match U order nlp text σ token :
  token ∈ tokens (call nlp (Str.lower U text)) →
  (1 < Str.len (Token.text token) →
   Str.lower U (Token.text token) ∈ TECHNICAL_SKILLS →
   ∃ r σ', extract_skills U order nlp text σ = (Return r, σ')
     ∧ Str.lower U (Token.text token) ∈ r)
  ∧ (Str.len (Token.text token) ≤ 1 →
     ∀ σ1, Str.lower U (Token.text token) ∉ extracted_skills σ1 →
       ∃ σ2, for_ (tokens (call nlp (Str.lower U text))) (token_body U) σ1 = (Return tt, σ2)
         ∧ Str.lower U (Token.text token) ∉ extracted_skills σ2).
Proof.
  intros Htoken. split.
  - intros Hlen Hin.
    destruct (extract_skills_returns U order nlp text σ) as (r & σ' & Hrun & _ & _ & Hr).
    exists r, σ'. split; [done|].
    apply Hr, elem_of_matches. left. by exists token.
  - intros Hlen σ1 Hfresh. eexists. split.
    + apply (adds_for _ _ _ (λ x _, adds_token_body U x)).
    + simpl. fold (token_set U (call nlp (Str.lower U text))).
      rewrite elem_of_union, elem_of_token_set.
      intros [?|(token' & _ & Hin & Hlen' & Heq)]; [done|].
      apply vocabulary_ascii in Hin as [Hascii _].
      pose proof (StrFacts.len_lower_ascii U _ Hascii) as Hlen1.
      rewrite <-Heq in Hascii.
      pose proof (StrFacts.len_lower_ascii U _ Hascii) as Hlen2.
      apply (f_equal Str.len) in Heq. lia.
Qed.

Lemma token_exact_match_witness :
  (1 < Str.len (py "python") →
   Str.lower example_tables (py "python") ∈ TECHNICAL_SKILLS →
   ∃ r σ', extract_skills example_tables elements_order blank_engine
             (py "We use Python") empty_store = (Return r, σ')
     ∧ Str.lower example_tables (py "python") ∈ r)
  ∧ (Str.len (py "python") ≤ 1 →
     ∀ σ1, Str.lower example_tables (py "python") ∉ extracted_skills σ1 →
       ∃ σ2, for_ (tokens (call blank_engine (Str.lower example_tables (py "We use Python"))))
               (token_body example_tables) σ1 = (Return tt, σ2)
         ∧ Str.lower example_tables (py "python") ∉ extracted_skills σ2).
Proof.
  apply (token_exact_match example_tables elements_order blank_engine (py "We use Python") empty_store
           (Token.mk (py "python"))).
  vm_compute. do 2 apply list_elem_of_further. apply list_elem_of_here.
Defined.

(** A token of one letter is not added, though "r" is in the vocabulary. *)
Example single_letter_token_is_not_added :
  py "r" ∈ TECHNICAL_SKILLS
  ∧ extracted_skills (for_ [Token.mk (py "r")] (token_body example_tables) empty_store).2 = ∅.
Proof. split; [apply (bool_decide_unpack _)|]; vm_compute; done. Qed.

(** C4. With the entity recogniser present, the lower-cased text of an
    ORG or PRODUCT entity that is longer than one character, is not a
    number and has a word that is a vocabulary entry is in the list
    [extract_skills] returns, as a whole. *)
Theorem entity_with_skill_word_is_extracted U order nlp text σ ent word :
  has_pipe nlp (py "ner") = true →
  ent ∈ ents (call nlp (Str.lower U text)) →
  Span.label_ ent ∈ [py "ORG"; py "PRODUCT"] →
  1 < Str.len (Span.text ent) →
  Str.isdigit U (Span.text ent) = false →
  word ∈ Str.split U (Str.lower U (Span.text ent)) →
  word ∈ TECHNICAL_SKILLS →
  ∃ r σ', extract_skills U order nlp text σ = (Return r, σ')
    ∧ Str.lower U (Span.text ent) ∈ r.
Proof.
  intros Hner Hent Hlabel Hlen Hdigit Hword Hin.
  destruct (extract_skills_returns U order nlp text σ) as (r & σ' & Hrun & _ & _ & Hr).
  exists r, σ'. split; [done|].
  apply Hr, elem_of_matches. right; right; left. split; [done|].
  exists ent. eauto 10.
Qed.

Lemma entity_with_skill_word_is_extracted_witness :
  (∃ r σ', extract_skills example_tables elements_order
             (fixed_engine [py "ner"] no_break_space_doc) (py "Apache Kafka") empty_store
           = (Return r, σ')
     ∧ py "apache" ++ [160%N] ++ py "kafka" ∈ r)
  ∧ py "apache" ++ [160%N] ++ py "kafka" ∉ TECHNICAL_SKILLS.
Proof.
  split.
  - apply (entity_with_skill_word_is_extracted example_tables elements_order
             (fixed_engine [py "ner"] no_break_space_doc) (py "Apache Kafka") empty_store
             (Span.mk (py "apache" ++ [160%N] ++ py "kafka") (py "PRODUCT")) (py "apache")).
    + reflexivity.
    + apply list_elem_of_here.
    + apply list_elem_of_further, list_elem_of_here.
    + reflexivity.
    + reflexivity.
    + apply list_elem_of_here.
    + apply vocabulary_elem. vm_compute. reflexivity.
  - apply (bool_decide_unpack _). vm_compute. exact I.
Defined.

(** An entity of several words separated by spaces: the whole text is
    returned, though it is not a vocabulary entry. *)
Example entity_of_three_words :
  (extract_skills example_tables elements_order (fixed_engine [py "ner"] kafka_doc)
     (py "Apache Kafka Inc") empty_store).1
  = Return [py "apache"; py "apache kafka inc"].
Proof. vm_compute. reflexivity. Qed.

(** The words of an entity are split at every white space of the
    tables, the no-break space included: the entity text is returned as
    a whole, also when the noun chunks raise. *)
Example entity_with_no_break_space :
  (extract_skills example_tables elements_order
     (fixed_engine [py "ner"] no_break_space_doc) (py "Apache Kafka") empty_store).1
  = Return [py "apache" ++ [160%N] ++ py "kafka"]
  ∧ (extract_skills example_tables elements_order
       (fixed_engine [py "ner"; py "parser"] no_break_space_doc) (py "Apache Kafka")
       empty_store).1
    = Return [py "apache" ++ [160%N] ++ py "kafka"].
Proof. split; vm_compute; reflexivity. Qed.

(** A string with a capital letter outside ASCII is not its own
    lower-casing. *)
Example capital_e_acute_is_not_lower_case :
  Str.lower example_tables ([201%N] ++ py "cole") = [233%N] ++ py "cole"
  ∧ Str.lower example_tables ([201%N] ++ py "cole") ≠ [201%N] ++ py "cole".
Proof. split; [reflexivity|discriminate]. Qed.

(** C5. With neither the entity recogniser nor the parser, [extract_skills]
    returns normally and prints nothing; its result holds exactly the
    token, phrase and adjacent-token-pair matches, so nothing comes from
    entities or noun chunks; and every pair of adjacent tokens whose
    lower-cased texts joined by a space are a vocabulary entry
    contributes that entry. *)
Theorem minimal_engine_degrades U order nlp text σ :
  has_pipe nlp (py "ner") = false →
  has_pipe nlp (py "parser") = false →
  let doc := call nlp (Str.lower U text) in
  ∃ r σ', extract_skills U order nlp text σ = (Return r, σ')
    ∧ stdout σ' = stdout σ
    ∧ (∀ s, s ∈ r ↔ token_match U doc s ∨ phrase_match U text s ∨ bigram_match U doc s)
    ∧ (∀ (i : nat) t1 t2,
         tokens doc !! i = Some t1 →
         tokens doc !! S i = Some t2 →
         Str.lower U (Token.text t1 ++ py " " ++ Token.text t2) ∈ TECHNICAL_SKILLS →
         Str.lower U (Token.text t1 ++ py " " ++ Token.text t2) ∈ r).
Proof.
  intros Hner Hparser doc.
  destruct (extract_skills_returns U order nlp text σ) as (r & σ' & Hrun & _ & Hout & Hr).
  assert (∀ s, s ∈ r ↔ token_match U doc s ∨ phrase_match U text s ∨ bigram_match U doc s)
    as Hiff.
  { intros s. rewrite Hr, elem_of_matches. fold doc. rewrite Hner, Hparser.
    intuition discriminate. }
  exists r, σ'. split; [done|]. split; [|split; [done|]].
  - rewrite Hout. unfold warnings. rewrite Hparser. apply (right_id_L [] (++)).
  - intros i t1 t2 Ht1 Ht2 Hin. apply Hiff. right; right. by exists i, t1, t2.
Qed.

Lemma minimal_engine_degrades_witness :
  ∃ r σ', extract_skills example_tables elements_order blank_engine (py "Machine  Learning") empty_store
          = (Return r, σ')
    ∧ stdout σ' = []
    ∧ py "machine learning" ∈ r.
Proof.
  destruct (minimal_engine_degrades example_tables elements_order blank_engine (py "Machine  Learning")
              empty_store eq_refl eq_refl) as (r & σ' & Hrun & Hout & _ & Hbigram).
  exists r, σ'. split; [exact Hrun|]. split; [exact Hout|].
  apply (Hbigram 0%nat (Token.mk (py "machine")) (Token.mk (py "learning"))).
  - reflexivity.
  - reflexivity.
  - apply vocabulary_elem. vm_compute. reflexivity.
Defined.

(** When the parser is present and the noun chunks raise after yielding
    some chunks, the exception is caught and a warning printed; what the
    chunks yielded so far matched stays in the result. *)
Lemma chunk_failure_keeps_earlier_chunks U order nlp text σ e :
  has_pipe nlp (py "parser") = true →
  raised (noun_chunks (call nlp (Str.lower U text))) = Some e →
  let doc := call nlp (Str.lower U text) in
  ∃ r σ', extract_skills U order nlp text σ = (Return r, σ')
    ∧ stdout σ' = stdout σ ++ [py "Warning: Error while processing noun chunks: " ++ str e]
    ∧ ∀ s, s ∈ r ↔
        token_match U doc s ∨ phrase_match U text s
        ∨ (has_pipe nlp (py "ner") = true ∧ entity_match U doc s)
        ∨ chunk_match U (yielded (noun_chunks doc)) s.
Proof.
  intros Hparser Hraised doc.
  destruct (extract_skills_returns U order nlp text σ) as (r & σ' & Hrun & _ & Hout & Hr).
  exists r, σ'. split; [done|]. split.
  - rewrite Hout. unfold warnings. by rewrite Hparser, Hraised.
  - intros s. rewrite Hr, elem_of_matches. fold doc. rewrite Hparser.
    intuition discriminate.
Qed.

(** C6. When the parser is present and noun-chunk extraction raises,
    [extract_skills] still returns normally: the exception is caught, one
    warning line is printed, and the result holds exactly the token,
    phrase and (with the entity recogniser) entity matches; the pairs of
    adjacent tokens are not looked at. *)
Theorem chunk_failure_is_caught U order nlp text σ e :
  has_pipe nlp (py "parser") = true →
  noun_chunks (call nlp (Str.lower U text)) = Raise e →
  let doc := call nlp (Str.lower U text) in
  ∃ r σ', extract_skills U order nlp text σ = (Return r, σ')
    ∧ stdout σ' = stdout σ ++ [py "Warning: Error while processing noun chunks: " ++ str e]
    ∧ ∀ s, s ∈ r ↔
        token_match U doc s ∨ phrase_match U text s
        ∨ (has_pipe nlp (py "ner") = true ∧ entity_match U doc s).
Proof.
  intros Hparser Hraise doc.
  destruct (chunk_failure_keeps_earlier_chunks U order nlp text σ e Hparser)
    as (r & σ' & Hrun & Hout & Hr).
  { by rewrite Hraise. }
  exists r, σ'. split; [done|]. split; [done|].
  intros s. rewrite Hr. subst doc. rewrite Hraise. simpl.
  split; [|tauto].
  intros [?|[?|[?|(chunk & []%elem_of_nil & _)]]]; tauto.
Qed.

Lemma chunk_failure_is_caught_witness :
  ∃ r σ', extract_skills example_tables elements_order
            (fixed_engine [py "ner"; py "parser"] no_break_space_doc) (py "Apache Kafka")
            empty_store = (Return r, σ')
    ∧ stdout σ' = [py "Warning: Error while processing noun chunks: no dependency parse"]
    ∧ py "apache" ++ [160%N] ++ py "kafka" ∈ r.
Proof.
  destruct (chunk_failure_is_caught example_tables elements_order
              (fixed_engine [py "ner"; py "parser"] no_break_space_doc) (py "Apache Kafka")
              empty_store (Exception (py "no dependency parse")) eq_refl eq_refl)
    as (r & σ' & Hrun & Hout & Hr).
  exists r, σ'. split; [exact Hrun|]. split; [exact Hout|].
  apply Hr. right; right. split; [reflexivity|].
  exists (Span.mk (py "apache" ++ [160%N] ++ py "kafka") (py "PRODUCT")).
  split; [apply list_elem_of_here|].
  split; [apply list_elem_of_further, list_elem_of_here|].
  split; [reflexivity|]. split; [reflexivity|]. split; [|reflexivity].
  exists (py "apache"). split; [apply list_elem_of_here|].
  apply vocabulary_elem. vm_compute. reflexivity.
Defined.

(** The same text and tokens: the pair of tokens is matched by the
    engine without a parser and is not when the parser's chunks raise. *)
Example bigram_only_without_parser :
  (extract_skills example_tables elements_order (fixed_engine [] broken_parser_doc)
     (py "Machine  Learning") empty_store).1 = Return [py "machine learning"]
  ∧ (extract_skills example_tables elements_order (fixed_engine [py "parser"] broken_parser_doc)
     (py "Machine  Learning") empty_store).1 = Return [].
Proof. split; vm_compute; reflexivity. Qed.

Lemma lower_space U : Str.lower U ([] ++ py " " ++ []) = py " ".
Proof. by rewrite StrFacts.lower_ascii by (by repeat constructor). Qed.

Lemma matches_empty_text U nlp : spans_within [] (call nlp []) → matches U nlp [] = ∅.
Proof.
  intros (Htokens & Hents & Hchunks).
  assert (∀ token, token ∈ tokens (call nlp []) → Token.text token = []) as Htoken.
  { intros token Hin. by apply StrFacts.substring_of_empty, Htokens. }
  apply set_eq. intros s. rewrite elem_of_matches, elem_of_empty.
  change (Str.lower U []) with (@nil N). split; [|done].
  intros [(token & Hin & _ & Hlen & _)
         |[(skill & Hin & _ & Hsub & _)
         |[(_ & ent & Hin & _ & Hlen & _)
         |[(_ & chunk & Hin & _ & Hsub & Hlen)
         |(_ & i & t1 & t2 & Ht1 & Ht2 & -> & Hin)]]]].
  - rewrite (Htoken token Hin) in Hlen. by vm_compute in Hlen.
  - apply StrFacts.substring_of_empty in Hsub.
    rewrite (vocabulary_lower U skill Hin) in Hsub. subst skill.
    by apply vocabulary_no_empty.
  - apply Hents, StrFacts.substring_of_empty in Hin. rewrite Hin in Hlen.
    by vm_compute in Hlen.
  - apply Hchunks, StrFacts.substring_of_empty in Hin. rewrite Hin in Hsub.
    change (Str.lower U []) with (@nil N) in Hsub.
    apply StrFacts.substring_of_empty in Hsub. subst s. by vm_compute in Hlen.
  - apply list_elem_of_lookup_2, Htoken in Ht1.
    apply list_elem_of_lookup_2, Htoken in Ht2.
    rewrite Ht1, Ht2, lower_space in Hin. by apply vocabulary_no_space.
Qed.

(** C7. On the empty text, with an engine whose spans lie within the
    text it is given, [extract_skills] returns the empty list, whose
    length is 0; it does not raise. *)
Theorem extract_skills_empty_text U order nlp σ :
  spans_within [] (call nlp []) →
  ∃ r σ', extract_skills U order nlp [] σ = (Return r, σ')
    ∧ r = []
    ∧ Z.of_nat (length r) = 0.
Proof.
  intros Hspans. eexists _, _. split; [apply extract_skills_run|].
  rewrite (matches_empty_text U nlp Hspans), elements_empty. by split.
Qed.

Lemma extract_skills_empty_text_witness :
  ∃ r σ', extract_skills example_tables elements_order blank_engine [] empty_store = (Return r, σ')
    ∧ r = []
    ∧ Z.of_nat (length r) = 0.
Proof.
  apply extract_skills_empty_text.
  split; [|split]; intros x Hx; vm_compute in Hx; inversion Hx.
Defined.

(** ** The batch handler *)

Lemma batch_loop_run U order nlp job_descriptions results σ :
  ∃ σ', batch_loop U order nlp job_descriptions results σ =
    (Return (results
             ++ (result_for U nlp <$> filter (λ job_desc, text job_desc ≠ []) job_descriptions)),
     σ').
Proof.
  revert results σ.
  induction job_descriptions as [|job_desc rest IH]; intros results σ; simpl.
  - exists σ. by rewrite (right_id_L [] (++)).
  - rewrite filter_cons. case_bool_decide as Hempty.
    + rewrite decide_False by (by intros ?). apply IH.
    + rewrite decide_True by done.
      rewrite bind_run, extract_skills_run.
      destruct (IH (results ++ [result_for U nlp job_desc])
                  (mkStore (matches U nlp (text job_desc))
                     (stdout σ ++ warnings U nlp (text job_desc)))) as [σ' Hrun].
      exists σ'. unfold result_for in *. rewrite Hrun. simpl.
      by rewrite <-(assoc_L (++)).
Qed.

(** C8. For a batch that is not empty the handler returns normally; its
    results are, in the order of the batch, one per item whose text is
    not empty, each with the item's [job_id], the list [extract_skills]
    returns on the item's text and the length of that list; and
    [total_processed] is the number of results. *)
Theorem batch_results U order nlp job_descriptions σ :
  job_descriptions ≠ [] →
  ∃ response σ',
    extract_skills_from_batch U order nlp job_descriptions σ = (Return response, σ')
    ∧ Forall2
        (λ job_desc result,
           result_job_id result = job_id job_desc
           ∧ (∀ σ1, ∃ σ2, extract_skills U order nlp (text job_desc) σ1
                           = (Return (skills result), σ2))
           ∧ count result = Z.of_nat (length (skills result)))
        (filter (λ job_desc, text job_desc ≠ []) job_descriptions)
        (results response)
    ∧ total_processed response = Z.of_nat (length (results response)).
Proof.
  intros Hne. unfold extract_skills_from_batch.
  rewrite bool_decide_eq_false_2 by done.
  destruct (batch_loop_run U order nlp job_descriptions [] σ) as [σ' Hrun].
  eexists _, σ'. rewrite bind_run, Hrun. simpl. split; [done|]. split; [|done].
  clear Hrun.
  induction (filter _ job_descriptions) as [|job_desc l IH]; simpl; [constructor|].
  constructor; [|done].
  split; [done|]. split; [|done].
  intros σ1. eexists. apply extract_skills_run.
Qed.

Lemma batch_results_witness :
  ∃ response σ',
    extract_skills_from_batch example_tables elements_order blank_engine example_batch empty_store
    = (Return response, σ')
    ∧ Forall2
        (λ job_desc result,
           result_job_id result = job_id job_desc
           ∧ (∀ σ1, ∃ σ2, extract_skills example_tables elements_order blank_engine (text job_desc) σ1
                           = (Return (skills result), σ2))
           ∧ count result = Z.of_nat (length (skills result)))
        (filter (λ job_desc, text job_desc ≠ []) example_batch)
        (results response)
    ∧ total_processed response = Z.of_nat (length (results response)).
Proof.
  apply batch_results. discriminate.
Defined.

(** The batch of the specification, on the tokenizer-only engine. *)
Example example_batch_response :
  (extract_skills_from_batch example_tables elements_order blank_engine example_batch empty_store).1
  = Return (mkBatchResponse
              [mkResult (py "1") [py "docker"; py "python"] 2; mkResult (py "3") [py "postgresql"] 1]
              2).
Proof. vm_compute. reflexivity. Qed.

(** An empty batch is refused, and so is an empty text by the single-item
    handler. *)
Example empty_batch_refused U order nlp σ :
  extract_skills_from_batch U order nlp [] σ
  = (Raised (HTTPException 400 (py "Job descriptions list cannot be empty")), σ).
Proof. reflexivity. Qed.

Example empty_text_refused U order nlp id σ :
  extract_skills_from_job_description U order nlp (mkItem id []) σ
  = (Raised (HTTPException 400 (py "Job description text cannot be empty")), σ).
Proof. reflexivity. Qed.

(** The single-text example of the specification, on the tokenizer-only
    engine. *)
Example example_single_text :
  (extract_skills example_tables elements_order blank_engine
     (py "Looking for a Java developer with Kubernetes and AWS experience") empty_store).1
  = Return [py "aws"; py "java"; py "kubernetes"].
Proof. vm_compute. reflexivity. Qed.

(** * Further properties of the code *)

(** ** More on strings *)

Lemma len_space_inside (pre post : pystr) :
  Str.len (pre ++ py " " ++ post) ≤ 1 → pre = [] ∧ post = [].
Proof.
  unfold Str.len. rewrite !length_app.
  change (length (py " ")) with 1%nat. intros Hlen.
  destruct pre, post; cbn in Hlen; (done || lia).
Qed.

Lemma vocabulary_entry_with_space s :
  s ∈ TECHNICAL_SKILLS → Str.substring_of (py " ") s → 1 < Str.len s.
Proof.
  intros Hin (pre & post & ->).
  destruct (decide (1 < Str.len (pre ++ py " " ++ post))) as [|Hlen]; [done|].
  destruct (len_space_inside pre post) as [-> ->]; [lia|].
  by destruct vocabulary_no_space.
Qed.

(** ** What [extract_skills] returns, in full *)

(** X1. The list [extract_skills] returns holds exactly the matches of
    the strategies that ran: token and phrase matches always, entity
    matches with the entity recogniser, noun-chunk matches with the
    parser (from the chunks yielded before any exception), and
    adjacent-token matches without it. *)
Theorem extract_skills_result_iff U order nlp text σ :
  let doc := call nlp (Str.lower U text) in
  ∃ r σ', extract_skills U order nlp text σ = (Return r, σ')
    ∧ ∀ s, s ∈ r ↔
        token_match U doc s
        ∨ phrase_match U text s
        ∨ (has_pipe nlp (py "ner") = true ∧ entity_match U doc s)
        ∨ (has_pipe nlp (py "parser") = true ∧ chunk_match U (yielded (noun_chunks doc)) s)
        ∨ (has_pipe nlp (py "parser") = false ∧ bigram_match U doc s).
Proof.
  intros doc.
  destruct (extract_skills_returns U order nlp text σ) as (r & σ' & Hrun & _ & _ & Hr).
  exists r, σ'. split; [done|]. intros s. rewrite Hr. apply elem_of_matches.
Qed.

(** X2. With the parser present, a vocabulary entry longer than one
    character that occurs anywhere inside the lower-cased text of a noun
    chunk is returned, also when it is only a part of a word. *)
Theorem chunk_substring_is_extracted U order nlp text σ chunk skill :
  has_pipe nlp (py "parser") = true →
  chunk ∈ yielded (noun_chunks (call nlp (Str.lower U text))) →
  skill ∈ TECHNICAL_SKILLS →
  1 < Str.len skill →
  Str.substring_of skill (Str.lower U (Span.text chunk)) →
  ∃ r σ', extract_skills U order nlp text σ = (Return r, σ') ∧ skill ∈ r.
Proof.
  intros Hparser Hchunk Hskill Hlen Hsub.
  destruct (extract_skills_returns U order nlp text σ) as (r & σ' & Hrun & _ & _ & Hr).
  exists r, σ'. split; [done|].
  apply Hr, elem_of_matches. do 3 right. left. split; [done|]. by exists chunk.
Qed.

Lemma chunk_substring_is_extracted_witness :
  ∃ r σ', extract_skills example_tables elements_order (fixed_engine [py "parser"] javascript_doc)
            (py "A JavaScript developer") empty_store = (Return r, σ')
    ∧ py "java" ∈ r.
Proof.
  apply (chunk_substring_is_extracted example_tables elements_order (fixed_engine [py "parser"] javascript_doc)
           (py "A JavaScript developer") empty_store (Span.mk (py "a javascript developer") (py "NP"))).
  - reflexivity.
  - apply list_elem_of_here.
  - apply vocabulary_elem. vm_compute. reflexivity.
  - reflexivity.
  - exists (py "a "), (py "script developer"). reflexivity.
Defined.

(** X3. Every string [extract_skills] returns is longer than one
    character; the vocabulary entry "r" is never returned, whatever the
    engine and the text. *)
Theorem extract_skills_no_single_character U order nlp text σ :
  ∃ r σ', extract_skills U order nlp text σ = (Return r, σ')
    ∧ (∀ s, s ∈ r → 1 < Str.len s)
    ∧ py "r" ∈ TECHNICAL_SKILLS
    ∧ py "r" ∉ r.
Proof.
  destruct (extract_skills_returns U order nlp text σ) as (r & σ' & Hrun & _ & _ & Hr).
  assert (∀ s, s ∈ r → 1 < Str.len s) as Hlen.
  { intros s Hs.
    apply Hr, elem_of_matches in Hs
      as [(token & _ & _ & Hlen & ->)
         |[(skill & Hin & Hspace & _ & ->)
         |[(_ & ent & _ & _ & Hlen & _ & _ & ->)
         |[(_ & chunk & _ & _ & _ & Hlen)
         |(_ & i & t1 & t2 & _ & _ & Heq & Hin)]]]].
    - pose proof (StrFacts.len_lower_le U (Token.text token)). lia.
    - rewrite (vocabulary_lower U skill Hin). by apply vocabulary_entry_with_space.
    - pose proof (StrFacts.len_lower_le U (Span.text ent)). lia.
    - done.
    - destruct (decide (1 < Str.len s)) as [|Hshort]; [done|].
      pose proof Hin as [Hascii _]%vocabulary_ascii.
      rewrite Heq in Hascii, Hshort.
      rewrite (StrFacts.len_lower_ascii U _ Hascii) in Hshort.
      destruct (len_space_inside (Token.text t1) (Token.text t2)) as [H1 H2]; [lia|].
      rewrite Heq, H1, H2, lower_space in Hin. by destruct vocabulary_no_space. }
  exists r, σ'. split; [done|]. split; [done|]. split.
  - apply vocabulary_elem. vm_compute. reflexivity.
  - intros Hin. apply Hlen in Hin. by vm_compute in Hin.
Qed.

(** X4. The text is read only through its lower-casing: two texts with
    the same lower-casing give the same list. *)
Theorem extract_skills_case_insensitive U order nlp text1 text2 σ1 σ2 :
  Str.lower U text1 = Str.lower U text2 →
  ∃ r, (extract_skills U order nlp text1 σ1).1 = Return r
     ∧ (extract_skills U order nlp text2 σ2).1 = Return r.
Proof.
  intros Hlower. exists (Str.sorted (elements (matches U nlp text1))).
  rewrite !extract_skills_run. split; [done|]. simpl. do 3 f_equal.
  apply set_eq. intros s. rewrite !elem_of_matches. unfold phrase_match.
  by rewrite Hlower.
Qed.

Lemma extract_skills_case_insensitive_witness :
  ∃ r, (extract_skills example_tables elements_order blank_engine
          ([201%N] ++ py "COLE Python") empty_store).1 = Return r
     ∧ (extract_skills example_tables elements_order blank_engine
          ([233%N] ++ py "cole python") empty_store).1 = Return r.
Proof. apply extract_skills_case_insensitive. reflexivity. Defined.

(** X5. [extract_skills] never removes what was printed before and
    prints at most one line; it prints nothing exactly when it is not
    the case that the parser is present and the noun chunks raise. *)
Theorem extract_skills_prints_only_on_chunk_failure U order nlp text σ :
  ∃ r σ' lines, extract_skills U order nlp text σ = (Return r, σ')
    ∧ stdout σ' = stdout σ ++ lines
    ∧ (length lines ≤ 1)%nat
    ∧ (lines = [] ↔
         ¬ (has_pipe nlp (py "parser") = true
            ∧ is_Some (raised (noun_chunks (call nlp (Str.lower U text)))))).
Proof.
  destruct (extract_skills_returns U order nlp text σ) as (r & σ' & Hrun & _ & Hout & _).
  exists r, σ', (warnings U nlp text). split; [done|]. split; [done|].
  unfold warnings.
  destruct (has_pipe nlp (py "parser"));
    [destruct (raised (noun_chunks (call nlp (Str.lower U text)))) as [e|]|]; simpl.
  - split; [lia|]. split; [done|]. intros []. split; [done|by exists e].
  - split; [lia|]. split; [|done]. by intros _ [_ [? ?]].
  - split; [lia|]. split; [|done]. by intros _ [? _].
Qed.

(** X6. Without the entity recogniser every returned string is a
    vocabulary entry, so the list has at most as many elements as the
    vocabulary, which has 145. *)
Theorem extract_skills_within_vocabulary U order nlp text σ :
  has_pipe nlp (py "ner") = false →
  ∃ r σ', extract_skills U order nlp text σ = (Return r, σ')
    ∧ (∀ s, s ∈ r → s ∈ TECHNICAL_SKILLS)
    ∧ (length r ≤ 145)%nat.
Proof.
  intros Hner.
  destruct (extract_skills_returns U order nlp text σ) as (r & σ' & Hrun & Heq & _ & Hr).
  assert (matches U nlp text ⊆ TECHNICAL_SKILLS) as Hsub.
  { intros s Hs. apply elem_of_matches in Hs
      as [(token & _ & Hin & _ & ->)
         |[(skill & Hin & _ & _ & ->)
         |[(Hner' & _)
         |[(_ & chunk & _ & Hin & _)
         |(_ & i & t1 & t2 & _ & _ & _ & Hin)]]]]; try done.
    - by rewrite (vocabulary_lower U skill Hin).
    - congruence. }
  exists r, σ'. split; [done|]. split.
  - intros s Hs. by apply Hsub, Hr.
  - rewrite Heq, StrFacts.sorted_perm.
    change (size (matches U nlp text) ≤ 145)%nat.
    etrans; [by apply subseteq_size|]. by vm_compute.
Qed.

Lemma extract_skills_within_vocabulary_witness :
  ∃ r σ', extract_skills example_tables elements_order blank_engine (py "We use Python") empty_store
          = (Return r, σ')
    ∧ (∀ s, s ∈ r → s ∈ TECHNICAL_SKILLS)
    ∧ (length r ≤ 145)%nat.
Proof. apply extract_skills_within_vocabulary. reflexivity. Defined.

(** ** Entities that are numbers *)

Lemma split_from_all_digits U word s :
  forallb (isdigit_char U) s = true → Str.split_from U (Some word) s = [word ++ s].
Proof.
  revert word. induction s as [|c s IH]; intros word; simpl.
  - intros _. by rewrite (right_id_L [] (++)).
  - intros [Hc Hs]%andb_true_iff.
    rewrite (law_digit_not_space U c Hc), (IH _ Hs). by rewrite <-(assoc_L (++)).
Qed.

Lemma ascii_digits U (s : pystr) :
  Forall (λ c, (c < 128)%N) s →
  forallb (isdigit_char U) s = true →
  Forall (λ c, (48 ≤ c ≤ 57)%N) s.
Proof.
  induction 1 as [|c s Hc _ IH]; simpl; [done|].
  intros [Hdigit Hs]%andb_true_iff. constructor; [|by apply IH].
  by apply (law_digit_ascii U).
Qed.

Lemma vocabulary_no_number U s : s ∈ TECHNICAL_SKILLS → Str.isdigit U s = false.
Proof.
  intros (Hascii & _ & Hnum)%vocabulary_ascii.
  destruct (Str.isdigit U s) eqn:Hdigit; [|done]. destruct Hnum.
  destruct s as [|c s]; [done|]. split; [done|].
  by apply (ascii_digits U).
Qed.

(** X7. An entity whose text is a number has no word in the vocabulary:
    the test [not ent.text.isdigit()] never keeps out an entity that the
    loop over its words would have added. *)
Theorem numeric_entity_has_no_skill_word U (ent : Span.t) :
  Str.isdigit U (Span.text ent) = true →
  ∀ word, word ∈ Str.split U (Str.lower U (Span.text ent)) → word ∉ TECHNICAL_SKILLS.
Proof.
  intros Hdigit word Hword Hin.
  destruct (Span.text ent) as [|c s] eqn:Htext; [done|].
  cbn [Str.isdigit] in Hdigit.
  unfold Str.lower in Hword. rewrite (StrFacts.lower_from_digits U _ _ Hdigit) in Hword.
  pose proof Hdigit as [Hc Hs]%andb_true_iff.
  unfold Str.split in Hword. cbn [Str.split_from] in Hword.
  rewrite (law_digit_not_space U c Hc), (split_from_all_digits U _ _ Hs) in Hword.
  apply list_elem_of_singleton in Hword. subst word.
  apply (vocabulary_no_number U) in Hin.
  change (Str.isdigit U (c :: s) = false) in Hin.
  cbn [Str.isdigit] in Hin. congruence.
Qed.

Lemma numeric_entity_has_no_skill_word_witness :
  Str.isdigit example_tables (py "2024") = true
  ∧ py "2024" ∈ Str.split example_tables (Str.lower example_tables (py "2024"))
  ∧ py "2024" ∉ TECHNICAL_SKILLS.
Proof.
  split; [reflexivity|]. split; [apply list_elem_of_here|].
  apply (numeric_entity_has_no_skill_word example_tables (Span.mk (py "2024") (py "ORG"))
           eq_refl (py "2024")).
  apply list_elem_of_here.
Defined.

(** ** The request handlers *)

(** X8. The single-item handler raises the 400 error exactly on an empty
    text, without touching the store; on any other text it returns the
    item's [job_id], the list [extract_skills] returns on the text, and
    the length of that list. *)
Theorem single_item_handler U order nlp job_desc σ :
  (text job_desc = [] →
   extract_skills_from_job_description U order nlp job_desc σ
   = (Raised (HTTPException 400 (py "Job description text cannot be empty")), σ))
  ∧ (text job_desc ≠ [] →
     ∃ r σ', extract_skills U order nlp (text job_desc) σ = (Return r, σ')
       ∧ extract_skills_from_job_description U order nlp job_desc σ
         = (Return (mkResult (job_id job_desc) r (Z.of_nat (length r))), σ')).
Proof.
  unfold extract_skills_from_job_description. split; intros Htext.
  - by rewrite bool_decide_eq_true_2.
  - rewrite bool_decide_eq_false_2 by done.
    eexists _, _. split; [apply extract_skills_run|].
    by rewrite bind_run, extract_skills_run.
Qed.

(** The batch loop, with what it prints. *)
Lemma batch_loop_run_stdout U order nlp job_descriptions results σ :
  let kept := filter (λ job_desc, text job_desc ≠ []) job_descriptions in
  ∃ σ', batch_loop U order nlp job_descriptions results σ
        = (Return (results ++ (result_for U nlp <$> kept)), σ')
    ∧ stdout σ' = stdout σ ++ mjoin ((λ job_desc, warnings U nlp (text job_desc)) <$> kept).
Proof.
  revert results σ.
  induction job_descriptions as [|job_desc rest IH]; intros results σ; simpl.
  - exists σ. by rewrite !(right_id_L [] (++)).
  - rewrite filter_cons. case_bool_decide as Hempty.
    + rewrite decide_False by (by intros ?). apply IH.
    + rewrite decide_True by done.
      rewrite bind_run, extract_skills_run.
      destruct (IH (results ++ [result_for U nlp job_desc])
                  (mkStore (matches U nlp (text job_desc))
                     (stdout σ ++ warnings U nlp (text job_desc)))) as (σ' & Hrun & Hout).
      exists σ'. unfold result_for in *. rewrite Hrun, Hout. simpl.
      by rewrite <-!(assoc_L (++)).
Qed.

Lemma batch_run U order nlp job_descriptions σ :
  job_descriptions ≠ [] →
  let kept := filter (λ job_desc, text job_desc ≠ []) job_descriptions in
  ∃ σ', extract_skills_from_batch U order nlp job_descriptions σ
        = (Return (mkBatchResponse (result_for U nlp <$> kept)
                     (Z.of_nat (length (result_for U nlp <$> kept)))), σ')
    ∧ stdout σ' = stdout σ ++ mjoin ((λ job_desc, warnings U nlp (text job_desc)) <$> kept).
Proof.
  intros Hne kept. unfold extract_skills_from_batch.
  rewrite bool_decide_eq_false_2 by done.
  destruct (batch_loop_run_stdout U order nlp job_descriptions [] σ) as (σ' & Hrun & Hout).
  exists σ'. by rewrite bind_run, Hrun.
Qed.

(** X9. The batch handler raises exactly on the empty list: then it
    raises the 400 error without touching the store, and on any other
    list it returns a response. *)
Theorem batch_raises_iff_empty U order nlp job_descriptions σ :
  (job_descriptions = [] →
   extract_skills_from_batch U order nlp job_descriptions σ
   = (Raised (HTTPException 400 (py "Job descriptions list cannot be empty")), σ))
  ∧ ((∃ e σ', extract_skills_from_batch U order nlp job_descriptions σ = (Raised e, σ'))
     ↔ job_descriptions = []).
Proof.
  split; [by intros ->|]. split.
  - intros (e & σ' & Hrun).
    destruct (decide (job_descriptions = [])) as [|Hne]; [done|].
    destruct (batch_run U order nlp job_descriptions σ Hne) as (σ'' & Hrun' & _).
    congruence.
  - intros ->. by eexists _, _.
Qed.

(** X10. A batch that is not empty but holds only empty texts is not an
    error: the response has no result and [total_processed] 0, and the
    store is untouched. *)
Theorem batch_of_empty_texts U order nlp job_descriptions σ :
  job_descriptions ≠ [] →
  Forall (λ job_desc, text job_desc = []) job_descriptions →
  extract_skills_from_batch U order nlp job_descriptions σ
  = (Return (mkBatchResponse [] 0), σ).
Proof.
  intros Hne Hall. unfold extract_skills_from_batch.
  rewrite bool_decide_eq_false_2 by done. rewrite bind_run.
  assert (∀ results, batch_loop U order nlp job_descriptions results σ = (Return results, σ))
    as ->; [|done].
  clear Hne. induction Hall as [|job_desc rest Hempty _ IH]; intros results; simpl; [done|].
  by rewrite bool_decide_eq_true_2.
Qed.

Lemma batch_of_empty_texts_witness :
  extract_skills_from_batch example_tables elements_order blank_engine [mkItem (py "1") []; mkItem (py "2") []]
    empty_store
  = (Return (mkBatchResponse [] 0), empty_store).
Proof.
  apply batch_of_empty_texts; [discriminate|].
  repeat constructor.
Defined.

(** X11. The results of a batch made of two batches one after the other
    are the results of the first followed by those of the second, and
    its [total_processed] is the sum of theirs. *)
Theorem batch_of_concatenation U order nlp batch1 batch2 σ σ1 σ2 :
  batch1 ≠ [] →
  batch2 ≠ [] →
  ∃ response1 response2 response,
    (extract_skills_from_batch U order nlp batch1 σ1).1 = Return response1
    ∧ (extract_skills_from_batch U order nlp batch2 σ2).1 = Return response2
    ∧ (extract_skills_from_batch U order nlp (batch1 ++ batch2) σ).1 = Return response
    ∧ results response = results response1 ++ results response2
    ∧ total_processed response = total_processed response1 + total_processed response2.
Proof.
  intros Hne1 Hne2.
  assert (batch1 ++ batch2 ≠ []) as Hne by (by destruct batch1).
  destruct (batch_run U order nlp batch1 σ1 Hne1) as (? & -> & _).
  destruct (batch_run U order nlp batch2 σ2 Hne2) as (? & -> & _).
  destruct (batch_run U order nlp (batch1 ++ batch2) σ Hne) as (? & -> & _).
  eexists _, _, _. split; [done|]. split; [done|]. split; [done|]. simpl.
  rewrite filter_app, fmap_app. split; [done|].
  rewrite length_app. lia.
Qed.

Lemma batch_of_concatenation_witness :
  ∃ response1 response2 response,
    (extract_skills_from_batch example_tables elements_order blank_engine
       [mkItem (py "1") (py "We use Python and Docker")] empty_store).1 = Return response1
    ∧ (extract_skills_from_batch example_tables elements_order blank_engine
         [mkItem (py "2") []; mkItem (py "3") (py "PostgreSQL")] empty_store).1 = Return response2
    ∧ (extract_skills_from_batch example_tables elements_order blank_engine
         ([mkItem (py "1") (py "We use Python and Docker")] ++ [mkItem (py "2") []; mkItem (py "3") (py "PostgreSQL")])
         empty_store).1 = Return response
    ∧ results response = results response1 ++ results response2
    ∧ total_processed response = total_processed response1 + total_processed response2.
Proof. apply batch_of_concatenation; discriminate. Defined.

Lemma single_item_handler_run U order nlp job_desc σ :
  text job_desc ≠ [] →
  ∃ σ', extract_skills_from_job_description U order nlp job_desc σ
        = (Return (result_for U nlp job_desc), σ').
Proof.
  intros Htext. unfold extract_skills_from_job_description.
  rewrite bool_decide_eq_false_2 by done.
  eexists. by rewrite bind_run, extract_skills_run.
Qed.

(** X12. Each result of a batch is what the single-item handler returns
    for the corresponding item: the two handlers agree item by item. *)
Theorem batch_agrees_with_single U order nlp job_descriptions σ :
  job_descriptions ≠ [] →
  ∃ response σ',
    extract_skills_from_batch U order nlp job_descriptions σ = (Return response, σ')
    ∧ Forall2
        (λ job_desc result,
           ∀ σ1, ∃ σ2, extract_skills_from_job_description U order nlp job_desc σ1
                       = (Return result, σ2))
        (filter (λ job_desc, text job_desc ≠ []) job_descriptions)
        (results response).
Proof.
  intros Hne.
  destruct (batch_run U order nlp job_descriptions σ Hne) as (σ' & Hrun & _).
  eexists _, σ'. split; [exact Hrun|]. simpl.
  apply Forall2_fmap_r, Forall_Forall2_diag, Forall_forall.
  intros job_desc [Htext _]%list_elem_of_filter σ1.
  destruct (single_item_handler_run U order nlp job_desc σ1 Htext) as (σ2 & Hsingle).
  by exists σ2.
Qed.

Lemma batch_agrees_with_single_witness :
  ∃ response σ',
    extract_skills_from_batch example_tables elements_order blank_engine example_batch empty_store
    = (Return response, σ')
    ∧ Forall2
        (λ job_desc result,
           ∀ σ1, ∃ σ2, extract_skills_from_job_description example_tables elements_order blank_engine
                         job_desc σ1 = (Return result, σ2))
        (filter (λ job_desc, text job_desc ≠ []) example_batch)
        (results response).
Proof. apply batch_agrees_with_single. discriminate. Defined.

(** X13. What a batch prints is, in order, what [extract_skills] prints
    on each of its items with a non-empty text, after what was printed
    before; with no parser in the engine it prints nothing. *)
Theorem batch_prints_item_warnings U order nlp job_descriptions σ :
  job_descriptions ≠ [] →
  ∃ response σ',
    extract_skills_from_batch U order nlp job_descriptions σ = (Return response, σ')
    ∧ stdout σ' =
        stdout σ ++ mjoin ((λ job_desc, warnings U nlp (text job_desc))
                           <$> filter (λ job_desc, text job_desc ≠ []) job_descriptions)
    ∧ (has_pipe nlp (py "parser") = false → stdout σ' = stdout σ).
Proof.
  intros Hne.
  destruct (batch_run U order nlp job_descriptions σ Hne) as (σ' & Hrun & Hout).
  eexists _, σ'. split; [exact Hrun|]. split; [exact Hout|].
  intros Hparser. rewrite Hout.
  assert (∀ l : list JobDescriptionItem,
            mjoin ((λ job_desc, warnings U nlp (text job_desc)) <$> l) = []) as ->.
  { induction l as [|job_desc l IH]; simpl; [done|].
    unfold warnings at 1. by rewrite Hparser. }
  apply (right_id_L [] (++)).
Qed.

Lemma batch_prints_item_warnings_witness :
  ∃ response σ',
    extract_skills_from_batch example_tables elements_order (fixed_engine [py "parser"] broken_parser_doc)
      [mkItem (py "1") (py "Machine Learning"); mkItem (py "2") []; mkItem (py "3") (py "Python")] empty_store
    = (Return response, σ')
    ∧ stdout σ' =
        [py "Warning: Error while processing noun chunks: no dependency parse";
         (py "Warning: Error while processing noun chunks: no dependency parse")].
Proof.
  destruct (batch_prints_item_warnings example_tables elements_order
              (fixed_engine [py "parser"] broken_parser_doc)
              [mkItem (py "1") (py "Machine Learning"); mkItem (py "2") []; mkItem (py "3") (py "Python")]
              empty_store) as (response & σ' & Hrun & Hout & _); [discriminate|].
  exists response, σ'. split; [exact Hrun|]. rewrite Hout. reflexivity.
Defined.

Lemma batch_loop_skips_empty U order nlp job_descriptions results σ :
  batch_loop U order nlp job_descriptions results σ
  = batch_loop U order nlp (filter (λ job_desc, text job_desc ≠ []) job_descriptions) results σ.
Proof.
  revert results σ.
  induction job_descriptions as [|job_desc rest IH]; intros results σ; [done|].
  rewrite filter_cons. cbn [batch_loop]. case_bool_decide as Hempty.
  - rewrite decide_False by (by intros ?). apply IH.
  - rewrite decide_True by done. cbn [batch_loop].
    rewrite bool_decide_eq_false_2 by done.
    rewrite !bind_run. destruct (extract_skills U _ _ _ _) as [[r|e] σ']; [apply IH|done].
Qed.

(** X14. Items with an empty text are as if absent: leaving them out of
    a batch, when something is left, changes neither the response nor
    the store. *)
Theorem batch_without_empty_texts U order nlp job_descriptions σ :
  filter (λ job_desc, text job_desc ≠ []) job_descriptions ≠ [] →
  extract_skills_from_batch U order nlp job_descriptions σ
  = extract_skills_from_batch U order nlp
      (filter (λ job_desc, text job_desc ≠ []) job_descriptions) σ.
Proof.
  intros Hkept. unfold extract_skills_from_batch.
  rewrite (bool_decide_eq_false_2 (filter _ _ = [])) by done.
  rewrite bool_decide_eq_false_2 by (by intros ->).
  by rewrite !bind_run, <-batch_loop_skips_empty.
Qed.

Lemma batch_without_empty_texts_witness :
  extract_skills_from_batch example_tables elements_order blank_engine example_batch empty_store
  = extract_skills_from_batch example_tables elements_order blank_engine
      (filter (λ job_desc, text job_desc ≠ []) example_batch) empty_store.
Proof. apply batch_without_empty_texts. vm_compute. discriminate. Defined.

(** ** Start-up *)

(** X15. When the model cannot be loaded and [spacy.blank] gives an
    engine with neither entity recogniser nor parser, loading the module
    and then extracting does not fail: the two start-up lines are all
    that is printed, and the result holds exactly the token, phrase and
    adjacent-token matches of the blank engine. *)
Theorem startup_fallback_then_extract U order spacy text σ e σ1 nlp σ2 :
  load spacy (py "en_core_web_sm") σ = (Raised e, σ1) →
  blank spacy (py "en") σ1 = (Return nlp, σ2) →
  has_pipe nlp (py "ner") = false →
  has_pipe nlp (py "parser") = false →
  let doc := call nlp (Str.lower U text) in
  ∃ r σ',
    (nlp ← load_nlp spacy; extract_skills U order nlp text) σ = (Return r, σ')
    ∧ stdout σ' =
        stdout σ2
        ++ [py "Warning: en_core_web_sm model not found. Using blank model instead.";
            (py "Install the model with: python -m spacy download en_core_web_sm")]
    ∧ ∀ s, s ∈ r ↔ token_match U doc s ∨ phrase_match U text s ∨ bigram_match U doc s.
Proof.
  intros Hload Hblank Hner Hparser doc.
  rewrite bind_run. unfold load_nlp, try_except. rewrite Hload.
  rewrite bind_run, Hblank. cbn [print ret]. rewrite bind_run. cbn [print].
  rewrite bind_run. cbn [print ret extracted_skills stdout].
  rewrite extract_skills_run. eexists _, _. split; [done|]. split.
  - cbn [stdout]. unfold warnings. rewrite Hparser.
    by rewrite (right_id_L [] (++)), <-(assoc_L (++)).
  - intros s. rewrite StrFacts.elem_of_sorted, elem_of_elements, elem_of_matches.
    fold doc. rewrite Hner, Hparser. intuition discriminate.
Qed.

Lemma startup_fallback_then_extract_witness :
  ∃ r σ',
    (nlp ← load_nlp spacy_without_model; extract_skills example_tables elements_order nlp (py "We use Python"))
      empty_store = (Return r, σ')
    ∧ stdout σ' =
        [py "Warning: en_core_web_sm model not found. Using blank model instead.";
         (py "Install the model with: python -m spacy download en_core_web_sm")]
    ∧ py "python" ∈ r.
Proof.
  destruct (startup_fallback_then_extract example_tables elements_order spacy_without_model (py "We use Python")
              empty_store (Exception (py "Can't find model")) empty_store blank_engine empty_store
              eq_refl eq_refl eq_refl eq_refl) as (r & σ' & Hrun & Hout & Hr).
  exists r, σ'. split; [exact Hrun|]. split; [exact Hout|].
  apply Hr. left. exists (Token.mk (py "python")). split; [|split; [|split]].
  - do 2 apply list_elem_of_further. apply list_elem_of_here.
  - apply vocabulary_elem. vm_compute. reflexivity.
  - reflexivity.
  - reflexivity.
Defined.
